(** * py-scurve: trapezoidal / minimum-time trajectory planning

    Two shallow embeddings of [trajectories.py], and the properties of
    its parameter check, its planners, its planning loop, its
    time-domain evaluator and its class [Trajectory].

    Part I reads the arithmetic of the code over the real numbers
    extended with a not-a-number value ([num]): the operations are exact
    (no rounding, no overflow, no infinity, no signed zero), [np.sqrt]
    of a negative number is [NaN], [NaN] propagates and every comparison
    with it is false.  A Python float and a numpy scalar are not told
    apart there, and a zero divisor is reported as [ZeroDivisionError].
    Part I carries the properties that do not depend on how a number is
    rounded: the parameter check, the planning loop and its exceptions,
    the shape of what a call returns, the flow of [a0], the class
    [Trajectory], and the real-valued formulas that the planners
    evaluate.

    Part II (module [B64]) reads the code over IEEE 754 binary64
    numbers, the primitive floats of the prover, as the interpreter and
    numpy compute them: every operation is rounded to nearest even, may
    overflow to an infinity or underflow to a subnormal number or to
    zero, and zeros are signed.  A value is a Python [float] or a
    [numpy.float64]; the two differ in a division by zero
    ([ZeroDivisionError] against inf or nan) and in an overflow of [**]
    ([OverflowError] against inf).  The properties of the numbers that
    the planners and the evaluator compute are stated on Part II (module
    [B64Props]).  Two readings are assumed there: [a ** 2] is the
    rounded product [a * a], and an [int] literal enters an operation as
    the float it converts to.

    Exceptions are values of [exn]; a function that may raise returns a
    [result].  The calls to [print] and the warnings of numpy are not
    modelled. *)

From Stdlib Require Import Reals Lra Psatz String List Bool Arith ZArith Lia.
From Stdlib Require Floats.
Import ListNotations.

Local Open Scope R_scope.

(** * Part I: exact arithmetic *)

(** ** Numbers *)

(** A real number, or nan.  The operations below are those of the reals:
    what a binary64 operation rounds, overflows or underflows is the
    matter of Part II. *)
Inductive num : Type :=
| Fin (r : R)
| NaN.

Declare Scope num_scope.
Delimit Scope num_scope with num.
Bind Scope num_scope with num.

Definition Rltb (x y : R) : bool := if Rlt_dec x y then true else false.
Definition Rleb (x y : R) : bool := if Rle_dec x y then true else false.
Definition Reqb (x y : R) : bool := if Req_dec_T x y then true else false.

Definition nlift2 (f : R -> R -> R) (a b : num) : num :=
  match a, b with
  | Fin x, Fin y => Fin (f x y)
  | _, _ => NaN
  end.

Definition nadd : num -> num -> num := nlift2 Rplus.
Definition nsub : num -> num -> num := nlift2 Rminus.
Definition nmul : num -> num -> num := nlift2 Rmult.
(** [ndiv] is the quotient by a divisor known not to be zero (the
    literal [2.]); a division by a variable goes through [py_div]. *)
Definition ndiv : num -> num -> num := nlift2 Rdiv.
Definition nneg (a : num) : num :=
  match a with
  | Fin x => Fin (- x)
  | NaN => NaN
  end.
(** [a ** 2] *)
Definition nsqr (a : num) : num := nmul a a.

(** [np.sqrt]: nan on a negative argument. *)
Definition np_sqrt (a : num) : num :=
  match a with
  | Fin x => if Rlt_dec x 0 then NaN else Fin (sqrt x)
  | NaN => NaN
  end.

Definition ncmp (f : R -> R -> bool) (a b : num) : bool :=
  match a, b with
  | Fin x, Fin y => f x y
  | _, _ => false
  end.

Definition nlt : num -> num -> bool := ncmp Rltb.
Definition nle : num -> num -> bool := ncmp Rleb.
Definition neqb : num -> num -> bool := ncmp Reqb.
Definition ngt (a b : num) : bool := nlt b a.
Definition nge (a b : num) : bool := nle b a.

Notation "a + b" := (nadd a b) : num_scope.
Notation "a - b" := (nsub a b) : num_scope.
Notation "a * b" := (nmul a b) : num_scope.
Notation "a / b" := (ndiv a b) : num_scope.
Notation "- a" := (nneg a) : num_scope.
Notation "a <? b" := (nlt a b) (at level 70) : num_scope.
Notation "a <=? b" := (nle a b) (at level 70) : num_scope.
Notation "a >? b" := (ngt a b) (at level 70) : num_scope.
Notation "a >=? b" := (nge a b) (at level 70) : num_scope.
Notation "a =? b" := (neqb a b) (at level 70) : num_scope.

(** The built-in [max] of two arguments: the second one only when it
    compares greater than the first. *)
Definition py_max (a b : num) : num := if (b >? a)%num then b else a.

(** ** Exceptions *)

Inductive exn : Type :=
| ValueError (msg : string)
| PlanningError (msg : string)
| TypeError
| ZeroDivisionError
| IndexError
| OverflowError.

Inductive result (A : Type) : Type :=
| Ok (a : A)
| Raise (e : exn).

Arguments Ok {A} a.
Arguments Raise {A} e.

Definition bind {A B : Type} (m : result A) (k : A -> result B) : result B :=
  match m with
  | Ok a => k a
  | Raise e => Raise e
  end.

Notation "x <- m ;; k" := (bind m (fun x => k))
  (at level 61, m at next level, right associativity).

(** [a / b] by a divisor that is a variable.  The reals have no
    infinity: a zero divisor is reported as [ZeroDivisionError], which
    is what two Python floats do; Part II gives the inf or nan of numpy. *)
Definition py_div (a b : num) : result num :=
  if (b =? Fin 0)%num then Raise ZeroDivisionError else Ok (a / b)%num.

(** [l[i]] on a list. *)
Definition py_index {A : Type} (l : list A) (i : nat) : result A :=
  match nth_error l i with
  | Some v => Ok v
  | None => Raise IndexError
  end.

(** [l[i]] and [len(l)] on a value that may be [None]. *)
Definition py_getitem {A : Type} (l : option (list A)) (i : nat) : result A :=
  match l with
  | Some l => py_index l i
  | None => Raise TypeError
  end.

Definition py_len {A : Type} (l : option (list A)) : result nat :=
  match l with
  | Some l => Ok (length l)
  | None => Raise TypeError
  end.

(** ** check_profile_params *)

Definition msg_missing : string := "Please specify either a_max or v_max".
Definition msg_mismatch : string :=
  "Number of dimentions in parameters does not match".

Definition is_None {A : Type} (o : option A) : bool :=
  match o with
  | None => true
  | Some _ => false
  end.

(** The chained comparison
    [len(x) == len(y) == len(v0) == len(a0) == len(a_max) == len(v_max)]
    evaluates its operands from left to right and stops at the first
    link that is false. *)
Definition lengths_match (x y v0 a0 : list num) (a_max v_max : option (list num))
  : result bool :=
  if negb (length x =? length y)%nat then Ok false
  else if negb (length y =? length v0)%nat then Ok false
  else if negb (length v0 =? length a0)%nat then Ok false
  else
    la <- py_len a_max ;;
    if negb (length a0 =? la)%nat then Ok false
    else
      lv <- py_len v_max ;;
      Ok (la =? lv)%nat.

Definition check_profile_params (x y v0 a0 : list num)
    (a_max v_max : option (list num)) : result nat :=
  if is_None a_max && is_None v_max then Raise (ValueError msg_missing)
  else
    res <- lengths_match x y v0 a0 a_max v_max ;;
    if negb res then Raise (ValueError msg_mismatch)
    else Ok (length x).

(** ** The planners *)

(** The tuple [(t, ta, tc, sa, sc, vc)] a planner returns. *)
Record params : Type := mk_params {
  p_t : num;
  p_ta : num;
  p_tc : num;
  p_sa : num;
  p_sc : num;
  p_vc : num
}.

Definition msg_trapezoidal : string := "Failed to plan trapezoidal profile".
Definition msg_speed : string := "Maximum speed exceeds bound".

Definition trapezoidal_planner (x y v0 a0 v_max a_max : num) : result params :=
  ta <- py_div (v_max - v0) a_max ;;
  let sa := (a_max * nsqr ta / Fin 2 + v0 * ta)%num in
  if (y - x <? Fin 2 * sa)%num then Raise (PlanningError msg_trapezoidal)
  else
    q <- py_div (y - x - a_max * nsqr ta - Fin 2 * v0 * ta) v_max ;;
    let t := (q + Fin 2 * ta)%num in
    let tc := (t - Fin 2 * ta)%num in
    let sc := (tc * v_max + Fin 0)%num in
    let vc := v_max in
    Ok (mk_params t ta tc sa sc vc).

Definition minimum_time_planner (x y v0 a0 v_max a_max : num) : result params :=
  let a := a_max in
  let D := np_sqrt (nsqr v0 + (y - x) * a_max) in
  let denom := (a_max / Fin 2)%num in
  t1 <- py_div (- v0 + D) denom ;;
  t2 <- py_div (- v0 - D) denom ;;
  let t := py_max t1 t2 in
  let ta := (Fin (1 / 2) * t)%num in
  let tc := Fin 0 in
  let sa := (v0 * ta + a * nsqr ta / Fin 2)%num in
  let sc := Fin 0 in
  let _v_max := (v0 + a * ta)%num in
  if (_v_max >? v_max)%num then Raise (PlanningError msg_speed)
  else Ok (mk_params t ta tc sa sc _v_max).

(** ** trapezoidal_profile: the planning loop *)

(** The six result lists [T, TA, TC, SA, SC, VC] of [trajectory_params]. *)
Record traj_params : Type := mk_traj_params {
  T : list num;
  TA : list num;
  TC : list num;
  SA : list num;
  SC : list num;
  VC : list num
}.

Definition empty_traj_params : traj_params := mk_traj_params [] [] [] [] [] [].

(** [for p_list, p in zip(trajectory_params, params): p_list.append(p)] *)
Definition append_params (L : traj_params) (p : params) : traj_params :=
  mk_traj_params (T L ++ [p_t p]) (TA L ++ [p_ta p]) (TC L ++ [p_tc p])
                 (SA L ++ [p_sa p]) (SC L ++ [p_sc p]) (VC L ++ [p_vc p]).

(** What the evaluator keeps of its enclosing scope. *)
Record closure : Type := mk_closure {
  c_dof : nat;
  c_x : list num;
  c_y : list num;
  c_v0 : list num;
  c_a0 : list num;
  c_v_max : option (list num);
  c_a_max : option (list num);
  c_params : traj_params
}.

(** The [try] of the loop: the minimum-time planner, and the trapezoidal
    one when the first raises [PlanningError] (no other exception is
    caught). *)
Definition plan_axis (x y v0 a0 v_max a_max : num) : result params :=
  match minimum_time_planner x y v0 a0 v_max a_max with
  | Raise (PlanningError _) => trapezoidal_planner x y v0 a0 v_max a_max
  | r => r
  end.

(** The body of the loop, for DOF [i]. *)
Definition plan_dof (x y v0 a0 : list num) (v_max a_max : option (list num))
    (i : nat) : result params :=
  xi <- py_index x i ;;
  yi <- py_index y i ;;
  v0i <- py_index v0 i ;;
  a0i <- py_index a0 i ;;
  v_maxi <- py_getitem v_max i ;;
  a_maxi <- py_getitem a_max i ;;
  plan_axis xi yi v0i a0i v_maxi a_maxi.

Fixpoint plan_loop (x y v0 a0 : list num) (v_max a_max : option (list num))
    (range : list nat) (L : traj_params) : result traj_params :=
  match range with
  | [] => Ok L
  | i :: range' =>
      p <- plan_dof x y v0 a0 v_max a_max i ;;
      plan_loop x y v0 a0 v_max a_max range' (append_params L p)
  end.

(** [check_profile_params] is called with [v_max] in the place of its
    parameter [a_max] and [a_max] in the place of [v_max], as in the
    source. *)
Definition trapezoidal_profile (x y v0 a0 : list num)
    (v_max a_max : option (list num)) : result (nat * list num * closure) :=
  dof <- check_profile_params x y v0 a0 v_max a_max ;;
  L <- plan_loop x y v0 a0 v_max a_max (seq 0 dof) empty_traj_params ;;
  Ok (dof, T L, mk_closure dof x y v0 a0 v_max a_max L).

(** ** trajectory: the evaluator *)

(** A row [point[i]] of the array: acceleration, speed, position. *)
Record point : Type := mk_point {
  acceleration : num;
  speed : num;
  position : num
}.

Definition msg_negative_time : string := "Time must be positive number".
Definition msg_time_limit : string := "Time exceeds limit".

(** The body of the evaluator's loop for one element of the zip. *)
Definition trajectory_row (c : closure) (_t : num) (i : nat) (p : params)
  : result point :=
  let t := p_t p in
  let ta := p_ta p in
  let tc := p_tc p in
  let sa := p_sa p in
  let sc := p_sc p in
  let vc := p_vc p in
  if (_t =? Fin 0)%num then
    a0i <- py_index (c_a0 c) i ;;
    v0i <- py_index (c_v0 c) i ;;
    xi <- py_index (c_x c) i ;;
    Ok (mk_point a0i v0i xi)
  else if (Fin 0 <? _t)%num && (_t <=? ta)%num then
    a_maxi <- py_getitem (c_a_max c) i ;;
    v0i <- py_index (c_v0 c) i ;;
    xi <- py_index (c_x c) i ;;
    Ok (mk_point a_maxi
                 (a_maxi * _t + v0i)%num
                 (xi + a_maxi * nsqr _t / Fin 2 + v0i * _t)%num)
  else if (ta <=? _t)%num && (_t <? ta + tc)%num then
    v_maxi <- py_getitem (c_v_max c) i ;;
    xi <- py_index (c_x c) i ;;
    Ok (mk_point (Fin 0) v_maxi (xi + sa + vc * (_t - ta))%num)
  else if (ta + tc <=? _t)%num && (_t <? t)%num then
    a_maxi <- py_getitem (c_a_max c) i ;;
    xi <- py_index (c_x c) i ;;
    Ok (mk_point (- a_maxi)%num
                 (vc - a_maxi * (_t - ta - tc))%num
                 (xi + sa + sc - a_maxi * nsqr (_t - ta - tc) / Fin 2
                  + vc * (_t - ta - tc))%num)
  else if (_t >=? t)%num then
    a0i <- py_index (c_a0 c) i ;;
    v0i <- py_index (c_v0 c) i ;;
    yi <- py_index (c_y c) i ;;
    Ok (mk_point a0i v0i yi)
  else Raise (ValueError msg_time_limit).

(** [zip(T, TA, TC, SA, SC, VC)], as long as the shortest list. *)
Fixpoint zip6 (t ta tc sa sc vc : list num) : list params :=
  match t, ta, tc, sa, sc, vc with
  | a :: t', b :: ta', c :: tc', d :: sa', e :: sc', f :: vc' =>
      mk_params a b c d e f :: zip6 t' ta' tc' sa' sc' vc'
  | _, _, _, _, _, _ => []
  end.

(** [zip(range(dof), T, TA, TC, SA, SC, VC)] *)
Definition zip_rows (dof : nat) (L : traj_params) : list (nat * params) :=
  combine (seq 0 dof) (zip6 (T L) (TA L) (TC L) (SA L) (SC L) (VC L)).

Fixpoint rows (c : closure) (_t : num) (zs : list (nat * params))
  : result (list point) :=
  match zs with
  | [] => Ok []
  | (i, p) :: zs' =>
      pt <- trajectory_row c _t i p ;;
      pts <- rows c _t zs' ;;
      Ok (pt :: pts)
  end.

(** The array [point] as the list of its rows.  A row the zip does not
    reach would stay at zero; after planning the six lists have [dof]
    elements each, so the zip reaches every row. *)
Definition trajectory (c : closure) (_t : num) : result (list point) :=
  if (_t <? Fin 0)%num then Raise (ValueError msg_negative_time)
  else rows c _t (zip_rows (c_dof c) (c_params c)).

(** * Closed forms and example data *)

(** The minimum-time planner on real inputs: the radicand, the root [D]
    and the two solutions as the code computes them. *)
Definition mt_rad (x y v0 a_max : R) : R := v0 * v0 + (y - x) * a_max.
Definition mt_D (x y v0 a_max : R) : R := sqrt (mt_rad x y v0 a_max).
Definition mt_t1 (x y v0 a_max : R) : R :=
  (- v0 + mt_D x y v0 a_max) / (a_max / 2).
Definition mt_t2 (x y v0 a_max : R) : R :=
  (- v0 - mt_D x y v0 a_max) / (a_max / 2).

(** The trapezoidal planner on real inputs: ramp time, ramp length,
    duration and cruise time as the code computes them. *)
Definition tr_ta (v0 v_max a_max : R) : R := (v_max - v0) / a_max.
Definition tr_sa (v0 v_max a_max : R) : R :=
  a_max * (tr_ta v0 v_max a_max * tr_ta v0 v_max a_max) / 2
  + v0 * tr_ta v0 v_max a_max.
Definition tr_t (x y v0 v_max a_max : R) : R :=
  (y - x - a_max * (tr_ta v0 v_max a_max * tr_ta v0 v_max a_max)
   - 2 * v0 * tr_ta v0 v_max a_max) / v_max
  + 2 * tr_ta v0 v_max a_max.
Definition tr_tc (x y v0 v_max a_max : R) : R :=
  tr_t x y v0 v_max a_max - 2 * tr_ta v0 v_max a_max.

(** The six lists of a list of planned profiles. *)
Definition unzip6 (ps : list params) : traj_params :=
  mk_traj_params (map p_t ps) (map p_ta ps) (map p_tc ps)
                 (map p_sa ps) (map p_sc ps) (map p_vc ps).


(** The state the evaluator reports at the start. *)
Definition start_point (x v0 a0 : list num) (i : nat) : point :=
  mk_point (nth i a0 NaN) (nth i v0 NaN) (nth i x NaN).

(** The closure of a call that passed the parameter check. *)
Definition planned_closure (x y v0 a0 lv la : list num) (dof : nat)
    (L : traj_params) : closure :=
  mk_closure dof x y v0 a0 (Some lv) (Some la) L.


(** A rest-to-rest move of length [4] with [v_max = 3] and [a_max = 1]. *)
Definition rest_move_4_closure (a0 : num) : closure :=
  mk_closure 1 [Fin 0] [Fin 4] [Fin 0] [a0] (Some [Fin 3]) (Some [Fin 1])
    (unzip6 [mk_params (Fin 4) (Fin 2) (Fin 0) (Fin 2) (Fin 0) (Fin 2)]).

(** * class Trajectory *)

(** The attribute [_time]: the integer [0] that [__init__] sets, or the
    list [T] that [plan_trajectory] stores. *)
Inductive time_value : Type :=
| TimeInt (n : Z)
| TimeList (l : list num).

(** An instance: [_trajectory] is [None] until an evaluator is stored. *)
Record Trajectory : Type := mk_Trajectory {
  _trajectory : option closure;
  _time : time_value;
  _dof : nat
}.

(** [__init__] *)
Definition Trajectory_init : Trajectory := mk_Trajectory None (TimeInt 0) 0.

(** The setters of the properties [time], [trajectory] and [dof]. *)
Definition set_time (self : Trajectory) (v : list num) : Trajectory :=
  mk_Trajectory (_trajectory self) (TimeList v) (_dof self).

Definition set_trajectory (self : Trajectory) (v : closure) : Trajectory :=
  mk_Trajectory (Some v) (_time self) (_dof self).

Definition set_dof (self : Trajectory) (v : nat) : Trajectory :=
  mk_Trajectory (_trajectory self) (_time self) v.

(** The static method [plan_trajectory]. *)
Definition plan_trajectory (x y v0 a0 : list num)
    (v_max a_max : option (list num)) : result Trajectory :=
  r <- trapezoidal_profile x y v0 a0 v_max a_max ;;
  let '(dof, Tl, trajectory_f) := r in
  let traj := Trajectory_init in
  let traj := set_time traj Tl in
  let traj := set_trajectory traj trajectory_f in
  let traj := set_dof traj dof in
  Ok traj.

(** [__call__]: calling the stored evaluator; [None] is not callable. *)
Definition Trajectory_call (self : Trajectory) (time : num) : result (list point) :=
  match _trajectory self with
  | Some f => trajectory f time
  | None => Raise TypeError
  end.

(** The example of the module's entry point: two DOFs, the first planned
    by the minimum-time planner and the second by the trapezoidal one. *)
Definition main_src : list num := [Fin 1; Fin 0].
Definition main_dst : list num := [Fin 2; Fin 15].
Definition main_a0 : list num := [Fin 0; Fin 0].
Definition main_v0 : list num := [Fin 0; Fin 0].
Definition main_a_max : list num := [Fin 2; Fin 3].
Definition main_v_max : list num := [Fin 3; Fin 5].

(** The plan of that example. *)
Definition main_params : list params :=
  [mk_params (Fin (sqrt 2)) (Fin (sqrt 2 / 2)) (Fin 0) (Fin (1 / 2)) (Fin 0)
     (Fin (sqrt 2));
   mk_params (Fin (14 / 3)) (Fin (5 / 3)) (Fin (4 / 3)) (Fin (25 / 6))
     (Fin (20 / 3)) (Fin 5)].

Definition main_closure : closure :=
  mk_closure 2 main_src main_dst main_v0 main_a0 (Some main_v_max) (Some main_a_max)
    (unzip6 main_params).

(** * Part II: binary64 arithmetic *)

Module B64.

Import PrimFloat SpecFloat FloatOps.
Local Open Scope float_scope.

(** A value is a Python [float] or a [numpy.float64]: both hold an IEEE
    binary64 number and differ in what a division by zero and an overflow
    of [**] do. *)
Inductive kind : Type :=
| PyFloat
| NpFloat64.

Record num : Type := mk_num {
  kind_of : kind;
  float_of : float
}.

Definition Py (f : float) : num := mk_num PyFloat f.
Definition Np (f : float) : num := mk_num NpFloat64 f.

(** The type of the result of a binary operator: [numpy.float64] as
    soon as one operand is. *)
Definition result_kind (a b : num) : kind :=
  match kind_of a, kind_of b with
  | PyFloat, PyFloat => PyFloat
  | _, _ => NpFloat64
  end.

Definition nadd (a b : num) : num :=
  mk_num (result_kind a b) (float_of a + float_of b).
Definition nsub (a b : num) : num :=
  mk_num (result_kind a b) (float_of a - float_of b).
Definition nmul (a b : num) : num :=
  mk_num (result_kind a b) (float_of a * float_of b).
Definition nneg (a : num) : num := mk_num (kind_of a) (- float_of a).

(** [np.sqrt]: the correctly rounded root, nan on a negative argument,
    always a [numpy.float64]. *)
Definition np_sqrt (a : num) : num := Np (sqrt (float_of a)).

Definition nlt (a b : num) : bool := float_of a <? float_of b.
Definition nle (a b : num) : bool := float_of a <=? float_of b.
Definition neqb (a b : num) : bool := float_of a =? float_of b.
Definition ngt (a b : num) : bool := nlt b a.
Definition nge (a b : num) : bool := nle b a.

Declare Scope b64_scope.
Delimit Scope b64_scope with b64.
Bind Scope b64_scope with num.

Notation "a + b" := (nadd a b) : b64_scope.
Notation "a - b" := (nsub a b) : b64_scope.
Notation "a * b" := (nmul a b) : b64_scope.
Notation "- a" := (nneg a) : b64_scope.
Notation "a <? b" := (nlt a b) (at level 70) : b64_scope.
Notation "a <=? b" := (nle a b) (at level 70) : b64_scope.
Notation "a >? b" := (ngt a b) (at level 70) : b64_scope.
Notation "a >=? b" := (nge a b) (at level 70) : b64_scope.
Notation "a =? b" := (neqb a b) (at level 70) : b64_scope.

(** The built-in [max] of two arguments. *)
Definition py_max (a b : num) : num := if (b >? a)%b64 then b else a.

(** [a / b]: between two Python floats a zero divisor raises
    [ZeroDivisionError]; with a [numpy.float64] operand the quotient is
    the IEEE one (inf or nan on a zero divisor, with a warning). *)
Definition py_div (a b : num) : result num :=
  match result_kind a b with
  | PyFloat =>
      if float_of b =? 0 then Raise ZeroDivisionError
      else Ok (Py (float_of a / float_of b))
  | NpFloat64 => Ok (Np (float_of a / float_of b))
  end.

(** [a ** 2]: the rounded square; a Python float whose square overflows
    raises [OverflowError], a [numpy.float64] gives inf. *)
Definition py_pow2 (a : num) : result num :=
  let r := float_of a * float_of a in
  match kind_of a with
  | PyFloat =>
      if is_finite (float_of a) && is_infinity r then Raise OverflowError
      else Ok (Py r)
  | NpFloat64 => Ok (Np r)
  end.

(** ** check_profile_params *)

Definition lengths_match (x y v0 a0 : list num) (a_max v_max : option (list num))
  : result bool :=
  if negb (length x =? length y)%nat then Ok false
  else if negb (length y =? length v0)%nat then Ok false
  else if negb (length v0 =? length a0)%nat then Ok false
  else
    la <- py_len a_max ;;
    if negb (length a0 =? la)%nat then Ok false
    else
      lv <- py_len v_max ;;
      Ok (la =? lv)%nat.

Definition check_profile_params (x y v0 a0 : list num)
    (a_max v_max : option (list num)) : result nat :=
  if is_None a_max && is_None v_max then Raise (ValueError msg_missing)
  else
    res <- lengths_match x y v0 a0 a_max v_max ;;
    if negb res then Raise (ValueError msg_mismatch)
    else Ok (length x).

(** ** The planners *)

Record params : Type := mk_params {
  p_t : num;
  p_ta : num;
  p_tc : num;
  p_sa : num;
  p_sc : num;
  p_vc : num
}.

(** The literals [2.], [2], [0.5], [0.0] and [0]; an [int] is written as
    the Python float it converts to in every operation it enters. *)
Definition two : num := Py 2.
Definition half : num := Py 0.5.
Definition zero : num := Py 0.

Definition trapezoidal_planner (x y v0 a0 v_max a_max : num) : result params :=
  ta <- py_div (v_max - v0) a_max ;;
  ta2 <- py_pow2 ta ;;
  h <- py_div (a_max * ta2) two ;;
  let sa := (h + v0 * ta)%b64 in
  if (y - x <? two * sa)%b64 then Raise (PlanningError msg_trapezoidal)
  else
    ta2' <- py_pow2 ta ;;
    q <- py_div (y - x - a_max * ta2' - two * v0 * ta) v_max ;;
    let t := (q + two * ta)%b64 in
    let tc := (t - two * ta)%b64 in
    let sc := (tc * v_max + zero)%b64 in
    let vc := v_max in
    Ok (mk_params t ta tc sa sc vc).

Definition minimum_time_planner (x y v0 a0 v_max a_max : num) : result params :=
  let a := a_max in
  v02 <- py_pow2 v0 ;;
  let D := np_sqrt (v02 + (y - x) * a_max) in
  denom <- py_div a_max two ;;
  t1 <- py_div (- v0 + D) denom ;;
  t2 <- py_div (- v0 - D) denom ;;
  let t := py_max t1 t2 in
  let ta := (half * t)%b64 in
  let tc := zero in
  ta2 <- py_pow2 ta ;;
  h <- py_div (a * ta2) two ;;
  let sa := (v0 * ta + h)%b64 in
  let sc := zero in
  let _v_max := (v0 + a * ta)%b64 in
  if (_v_max >? v_max)%b64 then Raise (PlanningError msg_speed)
  else Ok (mk_params t ta tc sa sc _v_max).

(** ** trapezoidal_profile: the planning loop *)

Record traj_params : Type := mk_traj_params {
  T : list num;
  TA : list num;
  TC : list num;
  SA : list num;
  SC : list num;
  VC : list num
}.

Definition empty_traj_params : traj_params := mk_traj_params [] [] [] [] [] [].

Definition append_params (L : traj_params) (p : params) : traj_params :=
  mk_traj_params (T L ++ [p_t p]) (TA L ++ [p_ta p]) (TC L ++ [p_tc p])
                 (SA L ++ [p_sa p]) (SC L ++ [p_sc p]) (VC L ++ [p_vc p]).

Record closure : Type := mk_closure {
  c_dof : nat;
  c_x : list num;
  c_y : list num;
  c_v0 : list num;
  c_a0 : list num;
  c_v_max : option (list num);
  c_a_max : option (list num);
  c_params : traj_params
}.

Definition plan_axis (x y v0 a0 v_max a_max : num) : result params :=
  match minimum_time_planner x y v0 a0 v_max a_max with
  | Raise (PlanningError _) => trapezoidal_planner x y v0 a0 v_max a_max
  | r => r
  end.

Definition plan_dof (x y v0 a0 : list num) (v_max a_max : option (list num))
    (i : nat) : result params :=
  xi <- py_index x i ;;
  yi <- py_index y i ;;
  v0i <- py_index v0 i ;;
  a0i <- py_index a0 i ;;
  v_maxi <- py_getitem v_max i ;;
  a_maxi <- py_getitem a_max i ;;
  plan_axis xi yi v0i a0i v_maxi a_maxi.

Fixpoint plan_loop (x y v0 a0 : list num) (v_max a_max : option (list num))
    (range : list nat) (L : traj_params) : result traj_params :=
  match range with
  | [] => Ok L
  | i :: range' =>
      p <- plan_dof x y v0 a0 v_max a_max i ;;
      plan_loop x y v0 a0 v_max a_max range' (append_params L p)
  end.

Definition trapezoidal_profile (x y v0 a0 : list num)
    (v_max a_max : option (list num)) : result (nat * list num * closure) :=
  dof <- check_profile_params x y v0 a0 v_max a_max ;;
  L <- plan_loop x y v0 a0 v_max a_max (seq 0 dof) empty_traj_params ;;
  Ok (dof, T L, mk_closure dof x y v0 a0 v_max a_max L).

(** ** trajectory: the evaluator *)

(** A row of the float64 array [point]. *)
Record point : Type := mk_point {
  acceleration : float;
  speed : float;
  position : float
}.

Definition trajectory_row (c : closure) (_t : num) (i : nat) (p : params)
  : result point :=
  let t := p_t p in
  let ta := p_ta p in
  let tc := p_tc p in
  let sa := p_sa p in
  let sc := p_sc p in
  let vc := p_vc p in
  if (_t =? zero)%b64 then
    a0i <- py_index (c_a0 c) i ;;
    v0i <- py_index (c_v0 c) i ;;
    xi <- py_index (c_x c) i ;;
    Ok (mk_point (float_of a0i) (float_of v0i) (float_of xi))
  else if (zero <? _t)%b64 && (_t <=? ta)%b64 then
    a_maxi <- py_getitem (c_a_max c) i ;;
    v0i <- py_index (c_v0 c) i ;;
    xi <- py_index (c_x c) i ;;
    t2 <- py_pow2 _t ;;
    h <- py_div (a_maxi * t2) two ;;
    Ok (mk_point (float_of a_maxi)
                 (float_of (a_maxi * _t + v0i)%b64)
                 (float_of (xi + h + v0i * _t)%b64))
  else if (ta <=? _t)%b64 && (_t <? ta + tc)%b64 then
    v_maxi <- py_getitem (c_v_max c) i ;;
    xi <- py_index (c_x c) i ;;
    Ok (mk_point 0 (float_of v_maxi) (float_of (xi + sa + vc * (_t - ta))%b64))
  else if (ta + tc <=? _t)%b64 && (_t <? t)%b64 then
    a_maxi <- py_getitem (c_a_max c) i ;;
    xi <- py_index (c_x c) i ;;
    d2 <- py_pow2 (_t - ta - tc) ;;
    h <- py_div (a_maxi * d2) two ;;
    Ok (mk_point (float_of (- a_maxi)%b64)
                 (float_of (vc - a_maxi * (_t - ta - tc))%b64)
                 (float_of (xi + sa + sc - h + vc * (_t - ta - tc))%b64))
  else if (_t >=? t)%b64 then
    a0i <- py_index (c_a0 c) i ;;
    v0i <- py_index (c_v0 c) i ;;
    yi <- py_index (c_y c) i ;;
    Ok (mk_point (float_of a0i) (float_of v0i) (float_of yi))
  else Raise (ValueError msg_time_limit).

Fixpoint zip6 (t ta tc sa sc vc : list num) : list params :=
  match t, ta, tc, sa, sc, vc with
  | a :: t', b :: ta', c :: tc', d :: sa', e :: sc', f :: vc' =>
      mk_params a b c d e f :: zip6 t' ta' tc' sa' sc' vc'
  | _, _, _, _, _, _ => []
  end.

Definition zip_rows (dof : nat) (L : traj_params) : list (nat * params) :=
  combine (seq 0 dof) (zip6 (T L) (TA L) (TC L) (SA L) (SC L) (VC L)).

Fixpoint rows (c : closure) (_t : num) (zs : list (nat * params))
  : result (list point) :=
  match zs with
  | [] => Ok []
  | (i, p) :: zs' =>
      pt <- trajectory_row c _t i p ;;
      pts <- rows c _t zs' ;;
      Ok (pt :: pts)
  end.

Definition trajectory (c : closure) (_t : num) : result (list point) :=
  if (_t <? zero)%b64 then Raise (ValueError msg_negative_time)
  else rows c _t (zip_rows (c_dof c) (c_params c)).

Definition unzip6 (ps : list params) : traj_params :=
  mk_traj_params (map p_t ps) (map p_ta ps) (map p_tc ps)
                 (map p_sa ps) (map p_sc ps) (map p_vc ps).

(** ** The planners on Python floats *)

(** Whether [a ** 2] overflows: a finite base and an infinite square. *)
Definition pow2_overflows (a : float) : bool :=
  is_finite a && is_infinity (a * a).

(** The minimum-time planner: the root [D], the two solutions, the
    duration, the ramp, its length and the peak speed, in the order and
    with the operations of the code. *)
Definition mt_D (x y v0 a_max : float) : float :=
  sqrt (v0 * v0 + (y - x) * a_max).
Definition mt_t1 (x y v0 a_max : float) : float :=
  (- v0 + mt_D x y v0 a_max) / (a_max / 2).
Definition mt_t2 (x y v0 a_max : float) : float :=
  (- v0 - mt_D x y v0 a_max) / (a_max / 2).
Definition mt_t (x y v0 a_max : float) : float :=
  if mt_t1 x y v0 a_max <? mt_t2 x y v0 a_max then mt_t2 x y v0 a_max
  else mt_t1 x y v0 a_max.
Definition mt_ta (x y v0 a_max : float) : float := 0.5 * mt_t x y v0 a_max.
Definition mt_sa (x y v0 a_max : float) : float :=
  v0 * mt_ta x y v0 a_max
  + a_max * (mt_ta x y v0 a_max * mt_ta x y v0 a_max) / 2.
Definition mt_peak (x y v0 a_max : float) : float :=
  v0 + a_max * mt_ta x y v0 a_max.
Definition mt_profile (x y v0 a_max : float) : params :=
  mk_params (Np (mt_t x y v0 a_max)) (Np (mt_ta x y v0 a_max)) zero
            (Np (mt_sa x y v0 a_max)) zero (Np (mt_peak x y v0 a_max)).

(** The trapezoidal planner: the ramp, its length, the duration, the
    cruise and its length. *)
Definition tr_ta (v0 v_max a_max : float) : float := (v_max - v0) / a_max.
Definition tr_sa (v0 v_max a_max : float) : float :=
  a_max * (tr_ta v0 v_max a_max * tr_ta v0 v_max a_max) / 2
  + v0 * tr_ta v0 v_max a_max.
Definition tr_t (x y v0 v_max a_max : float) : float :=
  (y - x - a_max * (tr_ta v0 v_max a_max * tr_ta v0 v_max a_max)
   - 2 * v0 * tr_ta v0 v_max a_max) / v_max
  + 2 * tr_ta v0 v_max a_max.
Definition tr_tc (x y v0 v_max a_max : float) : float :=
  tr_t x y v0 v_max a_max - 2 * tr_ta v0 v_max a_max.

(** The state the evaluator reports at the start and at the goal. *)
Definition start_point (x v0 a0 : list num) (i : nat) : point :=
  mk_point (float_of (nth i a0 zero)) (float_of (nth i v0 zero))
           (float_of (nth i x zero)).

Definition goal_point (y v0 a0 : list num) (i : nat) : point :=
  mk_point (float_of (nth i a0 zero)) (float_of (nth i v0 zero))
           (float_of (nth i y zero)).

(** The closure of a call that passed the parameter check. *)
Definition planned_closure (x y v0 a0 lv la : list num) (dof : nat)
    (L : traj_params) : closure :=
  mk_closure dof x y v0 a0 (Some lv) (Some la) L.

(** The row of the acceleration ramp at time [_t], with [sq] the value
    of [_t ** 2]. *)
Definition ramp_point (x v0 a_max : list num) (i : nat) (_t sq : num) : point :=
  mk_point (float_of (nth i a_max zero))
           (float_of (nth i a_max zero) * float_of _t + float_of (nth i v0 zero))
           (float_of (nth i x zero) + float_of (nth i a_max zero) * float_of sq / 2
            + float_of (nth i v0 zero) * float_of _t).

(** ** Example data *)

(** A rest-to-rest move of length [4] with [v_max = 3] and [a_max = 1]:
    the minimum-time profile [t = 4], [ta = 2]. *)
Definition rest_move_closure : closure :=
  mk_closure 1 [Py 0] [Py 4] [Py 0] [Py 0] (Some [Py 3]) (Some [Py 1])
    (unzip6 [mk_params (Np 4) (Np 2) zero (Np 2) zero (Np 2)]).

(** A move that starts with a velocity away from the goal:
    [x=3, y=0, v0=2, v_max=5, a_max=1]. *)
Definition reverse_move_closure : closure :=
  mk_closure 1 [Py 3] [Py 0] [Py 2] [Py 0] (Some [Py 5]) (Some [Py 1])
    (unzip6 [mk_params (Np (-2)) (Np (-1)) zero (Np (-1.5)) zero (Np 1)]).

(** A start faster than the speed limit: [x=0, y=0, v0=10, v_max=1,
    a_max=1], planned by the fallback with [t = 81], [ta = -9],
    [tc = 99]. *)
Definition overspeed_closure : closure :=
  mk_closure 1 [Py 0] [Py 0] [Py 10] [Py 0] (Some [Py 1]) (Some [Py 1])
    (unzip6 [mk_params (Py 81) (Py (-9)) (Py 99) (Py (-49.5)) (Py 99) (Py 1)]).

(** A rest-to-rest move of length [4] with [v_max = 1] and [a_max = 1]:
    the trapezoidal profile [t = 5], [ta = 1], [tc = 3]. *)
Definition cruise_closure : closure :=
  mk_closure 1 [Py 0] [Py 4] [Py 0] [Py 0] (Some [Py 1]) (Some [Py 1])
    (unzip6 [mk_params (Py 5) (Py 1) (Py 3) (Py 0.5) (Py 3) (Py 1)]).


(** ** Notions for the properties *)

(** The comparison of two numbers: [None] when one is nan. *)
Definition fcmp (a b : float) : option comparison :=
  SFcompare (Prim2SF a) (Prim2SF b).

(** A zero of either sign. *)
Definition fzero (a : float) : Prop := exists s, Prim2SF a = S754_zero s.

(** A number that is neither nan nor infinite. *)
Definition ffinite (a : float) : Prop :=
  match Prim2SF a with
  | S754_zero _ | S754_finite _ _ _ => True
  | _ => False
  end.



End B64.

(** * Properties of Part I *)

(** ** Comparisons and arithmetic on finite values *)

Lemma Rltb_true (x y : R) : x < y -> Rltb x y = true.
Proof. intros H. unfold Rltb. destruct (Rlt_dec x y); [reflexivity | contradiction]. Qed.

Lemma Rltb_false (x y : R) : y <= x -> Rltb x y = false.
Proof. intros H. unfold Rltb. destruct (Rlt_dec x y); [lra | reflexivity]. Qed.

Lemma Rleb_true (x y : R) : x <= y -> Rleb x y = true.
Proof. intros H. unfold Rleb. destruct (Rle_dec x y); [reflexivity | contradiction]. Qed.

Lemma Rleb_false (x y : R) : y < x -> Rleb x y = false.
Proof. intros H. unfold Rleb. destruct (Rle_dec x y); [lra | reflexivity]. Qed.

Lemma Reqb_true (x y : R) : x = y -> Reqb x y = true.
Proof. intros H. unfold Reqb. destruct (Req_dec_T x y); [reflexivity | contradiction]. Qed.

Lemma Reqb_false (x y : R) : x <> y -> Reqb x y = false.
Proof. intros H. unfold Reqb. destruct (Req_dec_T x y); [contradiction | reflexivity]. Qed.

Lemma Rltb_iff (x y : R) : Rltb x y = true <-> x < y.
Proof. unfold Rltb. destruct (Rlt_dec x y); split; intros; try lra; discriminate. Qed.

Lemma Rleb_iff (x y : R) : Rleb x y = true <-> x <= y.
Proof. unfold Rleb. destruct (Rle_dec x y); split; intros; try lra; discriminate. Qed.

Lemma Reqb_iff (x y : R) : Reqb x y = true <-> x = y.
Proof. unfold Reqb. destruct (Req_dec_T x y); split; intros; try lra; discriminate. Qed.

(** Unfolds the operations of [num] on finite arguments. *)
Ltac num_simpl :=
  cbn [nadd nsub nmul ndiv nneg nsqr nlift2 nlt nle neqb ngt nge ncmp
       np_sqrt py_max py_div bind
       p_t p_ta p_tc p_sa p_sc p_vc] in *.

Lemma py_div_Fin (a b : R) : b <> 0 -> py_div (Fin a) (Fin b) = Ok (Fin (a / b)).
Proof. intros H. unfold py_div. num_simpl. rewrite Reqb_false by assumption. reflexivity. Qed.

Lemma np_sqrt_Fin (r : R) : 0 <= r -> np_sqrt (Fin r) = Fin (sqrt r).
Proof. intros H. num_simpl. destruct (Rlt_dec r 0); [lra | reflexivity]. Qed.


(** ** The minimum-time planner in closed form *)

Section MinimumTime.

Variables x y v0 v_max a_max : R.
Variable a0 : num.

Lemma mt_t2_le_t1 : 0 < a_max -> mt_t2 x y v0 a_max <= mt_t1 x y v0 a_max.
Proof.
  intros Ha. unfold mt_t1, mt_t2.
  pose proof (sqrt_pos (mt_rad x y v0 a_max)) as HD. fold (mt_D x y v0 a_max) in HD.
  apply Rmult_le_compat_r; [ | lra].
  apply Rlt_le, Rinv_0_lt_compat. lra.
Qed.

Lemma mt_peak_is_D :
  a_max <> 0 -> v0 + a_max * (1 / 2 * mt_t1 x y v0 a_max) = mt_D x y v0 a_max.
Proof. intros Ha. unfold mt_t1. field. assumption. Qed.

(** With a radicand that is not negative the planner raises exactly when
    the root [D] exceeds [v_max], and returns the triangular profile
    otherwise. *)
Lemma minimum_time_planner_real :
  0 < a_max -> 0 <= mt_rad x y v0 a_max ->
  minimum_time_planner (Fin x) (Fin y) (Fin v0) a0 (Fin v_max) (Fin a_max) =
  if Rlt_dec v_max (mt_D x y v0 a_max) then Raise (PlanningError msg_speed)
  else Ok (mk_params (Fin (mt_t1 x y v0 a_max)) (Fin (1 / 2 * mt_t1 x y v0 a_max))
             (Fin 0)
             (Fin (v0 * (1 / 2 * mt_t1 x y v0 a_max)
                   + a_max * (1 / 2 * mt_t1 x y v0 a_max
                              * (1 / 2 * mt_t1 x y v0 a_max)) / 2))
             (Fin 0) (Fin (v0 + a_max * (1 / 2 * mt_t1 x y v0 a_max)))).
Proof.
  intros Ha Hrad. unfold minimum_time_planner.
  change (nsqr (Fin v0) + (Fin y - Fin x) * Fin a_max)%num
    with (Fin (mt_rad x y v0 a_max)).
  rewrite np_sqrt_Fin by assumption. fold (mt_D x y v0 a_max).
  set (D := mt_D x y v0 a_max).
  change (Fin a_max / Fin 2)%num with (Fin (a_max / 2)).
  change (- Fin v0 + Fin D)%num with (Fin (- v0 + D)).
  change (- Fin v0 - Fin D)%num with (Fin (- v0 - D)).
  rewrite !py_div_Fin by lra. subst D.
  fold (mt_t1 x y v0 a_max) (mt_t2 x y v0 a_max).
  cbn [bind].
  assert (Hmax : py_max (Fin (mt_t1 x y v0 a_max)) (Fin (mt_t2 x y v0 a_max))
                 = Fin (mt_t1 x y v0 a_max)).
  { unfold py_max. num_simpl.
    rewrite Rltb_false; [reflexivity | apply mt_t2_le_t1; assumption]. }
  rewrite Hmax. num_simpl.
  rewrite mt_peak_is_D by lra.
  unfold Rltb. destruct (Rlt_dec v_max (mt_D x y v0 a_max)); reflexivity.
Qed.


End MinimumTime.

(** ** The trapezoidal planner in closed form *)

Section Trapezoidal.

Variables x y v0 v_max a_max : R.
Variable a0 : num.

Lemma trapezoidal_planner_real :
  a_max <> 0 -> v_max <> 0 ->
  trapezoidal_planner (Fin x) (Fin y) (Fin v0) a0 (Fin v_max) (Fin a_max) =
  if Rlt_dec (y - x) (2 * tr_sa v0 v_max a_max)
  then Raise (PlanningError msg_trapezoidal)
  else Ok (mk_params (Fin (tr_t x y v0 v_max a_max)) (Fin (tr_ta v0 v_max a_max))
             (Fin (tr_tc x y v0 v_max a_max)) (Fin (tr_sa v0 v_max a_max))
             (Fin (tr_tc x y v0 v_max a_max * v_max + 0)) (Fin v_max)).
Proof.
  intros Ha Hv. unfold trapezoidal_planner.
  change (Fin v_max - Fin v0)%num with (Fin (v_max - v0)).
  rewrite py_div_Fin by assumption. fold (tr_ta v0 v_max a_max). cbn [bind].
  set (ta := tr_ta v0 v_max a_max).
  change (Fin a_max * nsqr (Fin ta) / Fin 2 + Fin v0 * Fin ta)%num
    with (Fin (tr_sa v0 v_max a_max)).
  change (Fin y - Fin x <? Fin 2 * Fin (tr_sa v0 v_max a_max))%num
    with (Rltb (y - x) (2 * tr_sa v0 v_max a_max)).
  unfold Rltb.
  destruct (Rlt_dec (y - x) (2 * tr_sa v0 v_max a_max)); [reflexivity | ].
  change (Fin y - Fin x - Fin a_max * nsqr (Fin ta) - Fin 2 * Fin v0 * Fin ta)%num
    with (Fin (y - x - a_max * (ta * ta) - 2 * v0 * ta)).
  rewrite py_div_Fin by assumption. reflexivity.
Qed.




End Trapezoidal.

(** ** The profiles of the planners *)

Lemma sqrt_4 : sqrt 4 = 2.
Proof. replace 4 with (2 * 2) by lra. apply sqrt_square. lra. Qed.



Lemma bind_Ok_inv {A B : Type} (m : result A) (k : A -> result B) (b : B) :
  bind m k = Ok b -> exists a, m = Ok a /\ k a = Ok b.
Proof.
  destruct m as [a | e]; cbn; intros H; [exists a; split; [reflexivity | exact H] | discriminate H].
Qed.




(** ** The planning loop *)

Lemma zip6_unzip6 (ps : list params) :
  zip6 (map p_t ps) (map p_ta ps) (map p_tc ps)
       (map p_sa ps) (map p_sc ps) (map p_vc ps) = ps.
Proof.
  induction ps as [ | p ps IH]; [reflexivity | ].
  cbn. rewrite IH. destruct p; reflexivity.
Qed.

Lemma append_params_unzip6 (ps : list params) (p : params) :
  append_params (unzip6 ps) p = unzip6 (ps ++ [p]).
Proof. unfold append_params, unzip6. cbn. rewrite !map_app. reflexivity. Qed.

Lemma plan_loop_unzip6 (x y v0 a0 : list num) (v_max a_max : option (list num)) :
  forall (range : list nat) (ps0 : list params) (L : traj_params),
    plan_loop x y v0 a0 v_max a_max range (unzip6 ps0) = Ok L ->
    exists ps,
      L = unzip6 (ps0 ++ ps)
      /\ Forall2 (fun i p => plan_dof x y v0 a0 v_max a_max i = Ok p) range ps.
Proof.
  induction range as [ | i range IH]; intros ps0 L H; cbn in H.
  - injection H as <-. exists []. rewrite app_nil_r. split; [reflexivity | constructor].
  - apply bind_Ok_inv in H as (p & Hp & H).
    rewrite append_params_unzip6 in H.
    apply IH in H as (ps & -> & Hall).
    exists (p :: ps). rewrite <- app_assoc. split; [reflexivity | ].
    constructor; assumption.
Qed.

Lemma check_profile_params_Ok (x y v0 a0 : list num)
    (a_max v_max : option (list num)) (n : nat) :
  check_profile_params x y v0 a0 a_max v_max = Ok n ->
  exists la lv,
    a_max = Some la /\ v_max = Some lv
    /\ n = length x /\ length y = n /\ length v0 = n /\ length a0 = n
    /\ length la = n /\ length lv = n.
Proof.
  unfold check_profile_params, lengths_match. intros H.
  destruct (is_None a_max && is_None v_max); [discriminate H | ].
  destruct (Nat.eqb_spec (length x) (length y)) as [Hxy | ]; [ | discriminate H].
  destruct (Nat.eqb_spec (length y) (length v0)) as [Hyv | ]; [ | discriminate H].
  destruct (Nat.eqb_spec (length v0) (length a0)) as [Hva | ]; [ | discriminate H].
  cbn [negb] in H.
  destruct a_max as [la | ]; [ | discriminate H]. cbn [py_len bind] in H.
  destruct (Nat.eqb_spec (length a0) (length la)) as [Hal | ]; [ | discriminate H].
  cbn [negb] in H.
  destruct v_max as [lv | ]; [ | discriminate H]. cbn [py_len bind] in H.
  destruct (Nat.eqb_spec (length la) (length lv)) as [Hlv | ]; [ | discriminate H].
  cbn in H. injection H as <-.
  exists la, lv. repeat split; congruence.
Qed.

Lemma check_profile_params_lengths (x y v0 a0 la lv : list num) :
  length y = length x -> length v0 = length x -> length a0 = length x ->
  length la = length x -> length lv = length x ->
  check_profile_params x y v0 a0 (Some la) (Some lv) = Ok (length x).
Proof.
  intros Hy Hv Ha Hla Hlv. unfold check_profile_params, lengths_match.
  cbn [is_None andb py_len bind].
  rewrite Hy, Hv, Ha, Hla, Hlv, !Nat.eqb_refl. reflexivity.
Qed.

(** What a successful call of [trapezoidal_profile] returns. *)
Lemma trapezoidal_profile_Ok (x y v0 a0 : list num)
    (v_max a_max : option (list num)) (dof : nat) (Tl : list num) (c : closure) :
  trapezoidal_profile x y v0 a0 v_max a_max = Ok (dof, Tl, c) ->
  exists lv la ps,
    v_max = Some lv /\ a_max = Some la
    /\ dof = length x /\ length y = dof /\ length v0 = dof /\ length a0 = dof
    /\ length lv = dof /\ length la = dof /\ length ps = dof
    /\ Forall2 (fun i p => plan_dof x y v0 a0 v_max a_max i = Ok p) (seq 0 dof) ps
    /\ Tl = map p_t ps
    /\ c = mk_closure dof x y v0 a0 v_max a_max (unzip6 ps).
Proof.
  unfold trapezoidal_profile. intros H.
  apply bind_Ok_inv in H as (n & Hcheck & H).
  apply bind_Ok_inv in H as (L & Hloop & H).
  injection H as <- <- <-.
  apply check_profile_params_Ok in Hcheck
    as (lv & la & -> & -> & Hn & Hy & Hv0 & Ha0 & Hlv & Hla).
  apply (plan_loop_unzip6 x y v0 a0 (Some lv) (Some la) (seq 0 n) []) in Hloop
    as (ps & -> & Hall).
  exists lv, la, ps. cbn [app].
  repeat split; try assumption.
  apply Forall2_length in Hall. rewrite length_seq in Hall. congruence.
Qed.


(** ** C8: the parameter check *)

(** C8.  With [x], [y], [v0], [a0] and [a_max] of one length and [v_max]
    absent (or [a_max] absent and [v_max] given), the first guard lets the
    call through and [len(None)] raises [TypeError]: the call neither
    returns [dof] nor raises [ValueError]. *)
Theorem check_profile_params_one_limit :
  check_profile_params [Fin 0] [Fin 1] [Fin 0] [Fin 0] (Some [Fin 1]) None
  = Raise TypeError
  /\ check_profile_params [Fin 0] [Fin 1] [Fin 0] [Fin 0] None (Some [Fin 1])
     = Raise TypeError.
Proof. split; reflexivity. Qed.

(** The three outcomes the check has when both limits are given or both
    are absent. *)
Lemma check_profile_params_missing (x y v0 a0 : list num) :
  check_profile_params x y v0 a0 None None = Raise (ValueError msg_missing).
Proof. reflexivity. Qed.

Lemma check_profile_params_mismatch (x y v0 a0 la lv : list num) :
  ~ (length y = length x /\ length v0 = length x /\ length a0 = length x
     /\ length la = length x /\ length lv = length x) ->
  check_profile_params x y v0 a0 (Some la) (Some lv)
  = Raise (ValueError msg_mismatch).
Proof.
  intros H. unfold check_profile_params, lengths_match.
  cbn [is_None andb py_len bind].
  destruct (Nat.eqb_spec (length x) (length y)); [ | reflexivity].
  destruct (Nat.eqb_spec (length y) (length v0)); [ | reflexivity].
  destruct (Nat.eqb_spec (length v0) (length a0)); [ | reflexivity].
  destruct (Nat.eqb_spec (length a0) (length la)); [ | reflexivity].
  destruct (Nat.eqb_spec (length la) (length lv)); [ | reflexivity].
  exfalso. apply H. repeat split; congruence.
Qed.

(** An absent limit is only reached, and [TypeError] only raised, when the
    lists before it in the chain have one length. *)
Lemma check_profile_params_absent_a_max (x y v0 a0 lv : list num) :
  check_profile_params x y v0 a0 None (Some lv)
  = if (length x =? length y)%nat && (length y =? length v0)%nat
       && (length v0 =? length a0)%nat
    then Raise TypeError else Raise (ValueError msg_mismatch).
Proof.
  unfold check_profile_params, lengths_match. cbn [is_None andb py_len bind].
  destruct (length x =? length y)%nat; [ | reflexivity].
  destruct (length y =? length v0)%nat; [ | reflexivity].
  destruct (length v0 =? length a0)%nat; reflexivity.
Qed.

Lemma check_profile_params_absent_v_max (x y v0 a0 la : list num) :
  check_profile_params x y v0 a0 (Some la) None
  = if (length x =? length y)%nat && (length y =? length v0)%nat
       && (length v0 =? length a0)%nat && (length a0 =? length la)%nat
    then Raise TypeError else Raise (ValueError msg_mismatch).
Proof.
  unfold check_profile_params, lengths_match. cbn [is_None andb py_len bind].
  destruct (length x =? length y)%nat; [ | reflexivity].
  destruct (length y =? length v0)%nat; [ | reflexivity].
  destruct (length v0 =? length a0)%nat; [ | reflexivity].
  destruct (length a0 =? length la)%nat; reflexivity.
Qed.

(** ** Planning one axis *)

Lemma plan_dof_axis (x y v0 a0 lv la : list num) (i : nat) (xi yi v0i a0i vi ai : num) :
  nth_error x i = Some xi -> nth_error y i = Some yi ->
  nth_error v0 i = Some v0i -> nth_error a0 i = Some a0i ->
  nth_error lv i = Some vi -> nth_error la i = Some ai ->
  plan_dof x y v0 a0 (Some lv) (Some la) i = plan_axis xi yi v0i a0i vi ai.
Proof.
  intros Hx Hy Hv0 Ha0 Hv Ha. unfold plan_dof, py_getitem, py_index.
  rewrite Hx, Hy, Hv0, Ha0, Hv, Ha. reflexivity.
Qed.

Lemma trapezoidal_profile_single (x y v0 a0 v_max a_max : num) :
  trapezoidal_profile [x] [y] [v0] [a0] (Some [v_max]) (Some [a_max]) =
  p <- plan_axis x y v0 a0 v_max a_max ;;
  Ok (1%nat, [p_t p],
      mk_closure 1 [x] [y] [v0] [a0] (Some [v_max]) (Some [a_max]) (unzip6 [p])).
Proof.
  unfold trapezoidal_profile. cbn [check_profile_params lengths_match is_None
    andb negb length Nat.eqb py_len bind seq plan_loop].
  rewrite (plan_dof_axis [x] [y] [v0] [a0] [v_max] [a_max] 0 x y v0 a0 v_max a_max)
    by reflexivity.
  destruct (plan_axis x y v0 a0 v_max a_max) as [p | e]; reflexivity.
Qed.

Section PlanAxis.

Variables x y v0 v_max a_max : R.
Variable a0 : num.
Hypothesis Ha : 0 < a_max.
Hypothesis Hv : 0 < v_max.
Hypothesis Hrad : 0 <= mt_rad x y v0 a_max.



End PlanAxis.

(** ** C7: the duration grows with the distance *)





(** A rest-to-rest move of length [0] and one of length [4], with
    [v_max = 3] and [a_max = 1]: durations [0] and [4]. *)
Lemma rest_move_0_plan (a0 : num) :
  minimum_time_planner (Fin 0) (Fin 0) (Fin 0) a0 (Fin 3) (Fin 1)
  = Ok (mk_params (Fin 0) (Fin 0) (Fin 0) (Fin 0) (Fin 0) (Fin 0)).
Proof.
  rewrite minimum_time_planner_real by (unfold mt_rad; lra).
  assert (HD : mt_D 0 0 0 1 = 0).
  { unfold mt_D, mt_rad. replace (0 * 0 + (0 - 0) * 1) with 0 by lra. apply sqrt_0. }
  unfold mt_t1. rewrite HD.
  destruct (Rlt_dec 3 0); [lra | ].
  f_equal. f_equal; apply f_equal; lra.
Qed.


Lemma rest_move_4_plan (a0 : num) :
  minimum_time_planner (Fin 0) (Fin 4) (Fin 0) a0 (Fin 3) (Fin 1)
  = Ok (mk_params (Fin 4) (Fin 2) (Fin 0) (Fin 2) (Fin 0) (Fin 2)).
Proof.
  rewrite minimum_time_planner_real by (unfold mt_rad; lra).
  assert (HD : mt_D 0 4 0 1 = 2).
  { unfold mt_D, mt_rad. replace (0 * 0 + (4 - 0) * 1) with 4 by lra. apply sqrt_4. }
  unfold mt_t1. rewrite HD.
  destruct (Rlt_dec 3 2); [lra | ].
  f_equal. f_equal; apply f_equal; lra.
Qed.

Lemma rest_move_4 (a0 : num) :
  trapezoidal_profile [Fin 0] [Fin 4] [Fin 0] [a0] (Some [Fin 3]) (Some [Fin 1])
  = Ok (1%nat, [Fin 4], rest_move_4_closure a0).
Proof.
  rewrite trapezoidal_profile_single. unfold plan_axis.
  rewrite rest_move_4_plan. reflexivity.
Qed.


(** ** C6: scenario A *)








(** ** The evaluator *)

Lemma py_index_nth {A : Type} (l : list A) (i : nat) (d : A) :
  (i < length l)%nat -> py_index l i = Ok (nth i l d).
Proof.
  intros Hi. unfold py_index.
  rewrite (nth_error_nth' l d Hi). reflexivity.
Qed.


Lemma rows_map (c : closure) (_t : num) (f : nat -> point) :
  forall zs : list (nat * params),
    (forall i p, In (i, p) zs -> trajectory_row c _t i p = Ok (f i)) ->
    rows c _t zs = Ok (map (fun z => f (fst z)) zs).
Proof.
  induction zs as [ | [i p] zs IH]; intros H; [reflexivity | ].
  cbn [rows map fst]. rewrite (H i p) by (left; reflexivity).
  cbn [bind]. rewrite IH by (intros j q Hin; apply H; right; assumption).
  reflexivity.
Qed.

Lemma rows_ext (c c' : closure) (_t : num) :
  forall zs : list (nat * params),
    (forall i p, In (i, p) zs -> trajectory_row c _t i p = trajectory_row c' _t i p) ->
    rows c _t zs = rows c' _t zs.
Proof.
  induction zs as [ | [i p] zs IH]; intros H; [reflexivity | ].
  cbn [rows]. rewrite (H i p) by (left; reflexivity).
  rewrite IH by (intros j q Hin; apply H; right; assumption).
  reflexivity.
Qed.

Lemma map_fst_combine_seq {A B : Type} (f : nat -> B) (ps : list A) :
  forall s : nat,
    map (fun z => f (fst z)) (combine (seq s (length ps)) ps)
    = map f (seq s (length ps)).
Proof.
  induction ps as [ | p ps IH]; intros s; [reflexivity | ].
  cbn. rewrite IH. reflexivity.
Qed.

Lemma in_combine_seq {A : Type} (ps : list A) (n i : nat) (p : A) :
  In (i, p) (combine (seq 0 n) ps) -> (i < n)%nat.
Proof.
  intros H. apply in_combine_l in H. apply in_seq in H. lia.
Qed.


Section Evaluator.

Variables x y v0 a0 lv la : list num.
Variable dof : nat.
Variable L : traj_params.

Hypothesis Hx : length x = dof.
Hypothesis Hy : length y = dof.
Hypothesis Hv0 : length v0 = dof.
Hypothesis Ha0 : length a0 = dof.
Hypothesis Hlv : length lv = dof.
Hypothesis Hla : length la = dof.

(** At [_t == 0] the first branch is taken. *)
Lemma trajectory_row_start (i : nat) (p : params) :
  (i < dof)%nat ->
  trajectory_row (planned_closure x y v0 a0 lv la dof L) (Fin 0) i p = Ok (start_point x v0 a0 i).
Proof.
  intros Hi. unfold trajectory_row, planned_closure.
  cbn [neqb ncmp c_a0 c_v0 c_x]. rewrite Reqb_true by reflexivity.
  rewrite (py_index_nth a0 i NaN), (py_index_nth v0 i NaN), (py_index_nth x i NaN)
    by lia.
  reflexivity.
Qed.

Lemma trajectory_start :
  length (zip6 (T L) (TA L) (TC L) (SA L) (SC L) (VC L)) = dof ->
  trajectory (planned_closure x y v0 a0 lv la dof L) (Fin 0)
  = Ok (map (start_point x v0 a0) (seq 0 dof)).
Proof.
  intros Hlen. unfold trajectory.
  cbn [nlt ncmp]. rewrite Rltb_false by lra.
  unfold zip_rows. cbn [planned_closure c_dof c_params].
  rewrite (rows_map _ _ (start_point x v0 a0)).
  - rewrite <- Hlen at 1. rewrite map_fst_combine_seq, Hlen. reflexivity.
  - intros i p Hin. apply trajectory_row_start.
    apply in_combine_seq in Hin. assumption.
Qed.

End Evaluator.

(** ** The start of a planned trajectory *)



(** At time [0] the evaluator of a planned trajectory returns the start
    state of every DOF. *)
Lemma trajectory_at_zero (x y v0 a0 : list num) (v_max a_max : option (list num))
    (dof : nat) (Tl : list num) (c : closure) :
  trapezoidal_profile x y v0 a0 v_max a_max = Ok (dof, Tl, c) ->
  trajectory c (Fin 0) = Ok (map (start_point x v0 a0) (seq 0 dof)).
Proof.
  intros H.
  apply trapezoidal_profile_Ok in H
    as (lv & la & ps & -> & -> & Hdof & Hy & Hv0 & Ha0 & Hlv & Hla & Hps & Hall & -> & ->).
  symmetry in Hdof.
  apply (trajectory_start x y v0 a0 lv la dof (unzip6 ps)); try assumption.
  cbn [unzip6 T TA TC SA SC VC]. rewrite zip6_unzip6. assumption.
Qed.

(** ** C10: the initial acceleration *)

(** The parameter check reads only the length of [a0]. *)
Lemma check_profile_params_a0 (x y v0 a0 a0' : list num)
    (a_max v_max : option (list num)) :
  length a0' = length a0 ->
  check_profile_params x y v0 a0' a_max v_max
  = check_profile_params x y v0 a0 a_max v_max.
Proof.
  intros Hlen. unfold check_profile_params, lengths_match.
  rewrite Hlen. reflexivity.
Qed.

(** Neither planner reads [a0]: the loop plans the same profile for a DOF
    whatever the value of [a0[i]]. *)
Lemma plan_dof_a0 (x y v0 a0 a0' : list num) (v_max a_max : option (list num))
    (i : nat) (p : params) :
  (i < length a0')%nat ->
  plan_dof x y v0 a0 v_max a_max i = Ok p ->
  plan_dof x y v0 a0' v_max a_max i = Ok p.
Proof.
  unfold plan_dof. intros Hi H.
  apply bind_Ok_inv in H as (xi & -> & H).
  apply bind_Ok_inv in H as (yi & -> & H).
  apply bind_Ok_inv in H as (v0i & -> & H).
  apply bind_Ok_inv in H as (a0i & _ & H).
  apply bind_Ok_inv in H as (vi & -> & H).
  apply bind_Ok_inv in H as (ai & -> & H).
  rewrite (py_index_nth a0' i NaN) by assumption.
  cbn [bind]. exact H.
Qed.

Lemma plan_loop_a0 (x y v0 a0 a0' : list num) (v_max a_max : option (list num)) :
  forall (range : list nat) (L L' : traj_params),
    (forall i, In i range -> (i < length a0')%nat) ->
    plan_loop x y v0 a0 v_max a_max range L = Ok L' ->
    plan_loop x y v0 a0' v_max a_max range L = Ok L'.
Proof.
  induction range as [ | i range IH]; intros L L' Hin H; [exact H | ].
  cbn [plan_loop] in *.
  apply bind_Ok_inv in H as (p & Hp & H).
  rewrite (plan_dof_a0 x y v0 a0 a0' v_max a_max i p)
    by (try apply Hin; try (left; reflexivity); assumption).
  cbn [bind]. apply IH; [ | assumption].
  intros j Hj. apply Hin. right. assumption.
Qed.

(** The branches of the evaluator that are neither the first nor the last
    do not read [a0]. *)
Lemma trajectory_row_a0 (dof : nat) (x y v0 a0 a0' : list num)
    (v_max a_max : option (list num)) (L : traj_params)
    (_t : num) (i : nat) (p : params) :
  (_t =? Fin 0)%num = false -> (_t >=? p_t p)%num = false ->
  trajectory_row (mk_closure dof x y v0 a0 v_max a_max L) _t i p
  = trajectory_row (mk_closure dof x y v0 a0' v_max a_max L) _t i p.
Proof.
  intros H0 Hend. unfold trajectory_row.
  rewrite H0, Hend. reflexivity.
Qed.

(** Where [a0] is read it is reported as the acceleration, next to a
    velocity and a position that do not depend on it. *)
Lemma trajectory_row_echo (dof : nat) (x y v0 a0 a0' : list num)
    (v_max a_max : option (list num)) (L : traj_params)
    (_t : num) (i : nat) (p : params) :
  (i < length a0)%nat -> (i < length a0')%nat ->
  (i < length v0)%nat -> (i < length x)%nat -> (i < length y)%nat ->
  trajectory_row (mk_closure dof x y v0 a0 v_max a_max L) _t i p
  = trajectory_row (mk_closure dof x y v0 a0' v_max a_max L) _t i p
  \/ exists v pos : num,
       trajectory_row (mk_closure dof x y v0 a0 v_max a_max L) _t i p
       = Ok (mk_point (nth i a0 NaN) v pos)
       /\ trajectory_row (mk_closure dof x y v0 a0' v_max a_max L) _t i p
          = Ok (mk_point (nth i a0' NaN) v pos).
Proof.
  intros Ha0 Ha0' Hv0 Hx Hy. unfold trajectory_row.
  cbn [c_a0 c_v0 c_x c_y c_a_max c_v_max].
  rewrite (py_index_nth a0 i NaN), (py_index_nth a0' i NaN), (py_index_nth v0 i NaN),
    (py_index_nth x i NaN), (py_index_nth y i NaN) by assumption.
  cbn [bind].
  destruct (_t =? Fin 0)%num; [right; eexists; eexists; split; reflexivity | ].
  destruct ((Fin 0 <? _t)%num && (_t <=? p_ta p)%num); [left; reflexivity | ].
  destruct ((p_ta p <=? _t)%num && (_t <? p_ta p + p_tc p)%num); [left; reflexivity | ].
  destruct ((p_ta p + p_tc p <=? _t)%num && (_t <? p_t p)%num); [left; reflexivity | ].
  destruct (_t >=? p_t p)%num; [right; eexists; eexists; split; reflexivity | ].
  left. reflexivity.
Qed.

Lemma nlt_not_eq (a b : num) : (a <? b)%num = true -> (b =? a)%num = false.
Proof.
  destruct a as [ra | ], b as [rb | ]; cbn; try discriminate.
  intros H. apply Rltb_iff in H. apply Reqb_false. lra.
Qed.

Lemma nlt_not_ge (a b : num) : (a <? b)%num = true -> (a >=? b)%num = false.
Proof.
  destruct a as [ra | ], b as [rb | ]; cbn; try discriminate.
  intros H. apply Rltb_iff in H. apply Rleb_false. lra.
Qed.

(** C10.  A planning call that returns also returns when [a0] is replaced
    by another list [a0'] of the same length, with the same [dof], the
    same durations and the same planned parameters for every DOF.  At a
    query time that is not [0] and not past the duration of a DOF, in
    particular when [0 < _t < t], the two evaluators compute the same row
    for that DOF, and they return the same array when [0 < _t < t] for
    every DOF.  At any time the two rows of a DOF are either the same or
    differ only in the reported acceleration, which is [a0[i]] in the
    one and [a0'[i]] in the other. *)
Theorem a0_independence (x y v0 a0 a0' : list num) (v_max a_max : option (list num))
    (dof : nat) (Tl : list num) (c : closure) :
  length a0' = length a0 ->
  trapezoidal_profile x y v0 a0 v_max a_max = Ok (dof, Tl, c) ->
  exists c' : closure,
    trapezoidal_profile x y v0 a0' v_max a_max = Ok (dof, Tl, c')
    /\ c_params c' = c_params c
    /\ (forall (_t : num) (i : nat) (p : params),
          (_t =? Fin 0)%num = false -> (_t >=? p_t p)%num = false ->
          trajectory_row c _t i p = trajectory_row c' _t i p)
    /\ (forall (_t : num) (i : nat) (p : params),
          (Fin 0 <? _t)%num = true -> (_t <? p_t p)%num = true ->
          trajectory_row c _t i p = trajectory_row c' _t i p)
    /\ (forall _t : num,
          (forall i p, In (i, p) (zip_rows (c_dof c) (c_params c)) ->
                       (Fin 0 <? _t)%num = true /\ (_t <? p_t p)%num = true) ->
          trajectory c _t = trajectory c' _t)
    /\ (forall (_t : num) (i : nat) (p : params),
          (i < dof)%nat ->
          trajectory_row c _t i p = trajectory_row c' _t i p
          \/ exists v pos : num,
               trajectory_row c _t i p = Ok (mk_point (nth i a0 NaN) v pos)
               /\ trajectory_row c' _t i p = Ok (mk_point (nth i a0' NaN) v pos)).
Proof.
  intros Hlen H. unfold trapezoidal_profile in *.
  apply bind_Ok_inv in H as (n & Hcheck & H).
  apply bind_Ok_inv in H as (L & Hloop & H).
  injection H as <- <- <-.
  exists (mk_closure n x y v0 a0' v_max a_max L).
  destruct (check_profile_params_Ok _ _ _ _ _ _ _ Hcheck)
    as (lv & la & _ & _ & Hn & Hy & Hv0 & Ha0 & _ & _).
  assert (Hrow : forall (_t : num) (i : nat) (p : params),
             (Fin 0 <? _t)%num = true -> (_t <? p_t p)%num = true ->
             trajectory_row (mk_closure n x y v0 a0 v_max a_max L) _t i p
             = trajectory_row (mk_closure n x y v0 a0' v_max a_max L) _t i p).
  { intros _t i p Hpos Hlt.
    apply trajectory_row_a0; [apply nlt_not_eq | apply nlt_not_ge]; assumption. }
  split; [ | split; [reflexivity | split; [ | split; [exact Hrow | split]]]].
  - rewrite (check_profile_params_a0 x y v0 a0 a0') by assumption.
    rewrite Hcheck. cbn [bind].
    rewrite (plan_loop_a0 x y v0 a0 a0' v_max a_max (seq 0 n) empty_traj_params L);
      [reflexivity | | assumption].
    intros i Hi. apply in_seq in Hi. lia.
  - intros _t i p. apply trajectory_row_a0.
  - intros _t Hin. unfold trajectory. cbn [c_dof c_params] in *.
    destruct (_t <? Fin 0)%num; [reflexivity | ].
    apply rows_ext. intros i p Hip.
    destruct (Hin i p Hip) as [Hpos Hlt]. apply Hrow; assumption.
  - intros _t i p Hi. apply trajectory_row_echo; lia.
Qed.

(** The rest-to-rest move of length [4], planned with [a0 = 0] and with
    [a0 = 7]: the second call returns the same durations, and the two
    evaluators agree at [_t = 1], inside [0 < _t < 4]. *)
Lemma a0_independence_witness :
  exists c' : closure,
    trapezoidal_profile [Fin 0] [Fin 4] [Fin 0] [Fin 7] (Some [Fin 3]) (Some [Fin 1])
    = Ok (1%nat, [Fin 4], c')
    /\ c_params c' = c_params (rest_move_4_closure (Fin 0))
    /\ trajectory (rest_move_4_closure (Fin 0)) (Fin 1) = trajectory c' (Fin 1).
Proof.
  destruct (a0_independence [Fin 0] [Fin 4] [Fin 0] [Fin 0] [Fin 7]
              (Some [Fin 3]) (Some [Fin 1]) 1 [Fin 4] (rest_move_4_closure (Fin 0))
              eq_refl (rest_move_4 (Fin 0)))
    as (c' & Hc' & Hparams & _ & _ & Harray & _).
  exists c'. split; [assumption | split; [assumption | ]].
  apply Harray. intros i p [Heq | []]. injection Heq as <- <-.
  split; cbn; apply Rltb_true; lra.
Defined.

(** * Further properties of the code *)

(** ** check_profile_params *)

(** X1.  The check returns [n] exactly when both limits are lists and the six
    lists have [n] elements each. *)
Theorem check_profile_params_returns (x y v0 a0 : list num)
    (a_max v_max : option (list num)) (n : nat) :
  check_profile_params x y v0 a0 a_max v_max = Ok n
  <-> exists la lv,
        a_max = Some la /\ v_max = Some lv
        /\ length x = n /\ length y = n /\ length v0 = n /\ length a0 = n
        /\ length la = n /\ length lv = n.
Proof.
  split.
  - intros H. apply check_profile_params_Ok in H
      as (la & lv & Ha & Hv & Hn & Hy & Hv0 & Ha0 & Hla & Hlv).
    exists la, lv. repeat split; congruence.
  - intros (la & lv & -> & -> & Hx & Hy & Hv0 & Ha0 & Hla & Hlv).
    rewrite <- Hx. apply check_profile_params_lengths; congruence.
Qed.

(** X2.  The exceptions of the check, each with the inputs that raise
    it.  [ValueError] with the first message: both limits are [None].
    [TypeError]: the four lists have one length and the first limit of
    the chain is [None] (the second being given), or the first limit has
    that length too and the second is [None].  [ValueError] with the
    second message: a limit is given and the chain meets two lengths
    that differ before it meets a limit that is [None].  No other
    exception is raised. *)
Theorem check_profile_params_raises (x y v0 a0 : list num)
    (a_max v_max : option (list num)) :
  (check_profile_params x y v0 a0 a_max v_max = Raise (ValueError msg_missing)
   <-> a_max = None /\ v_max = None)
  /\ (check_profile_params x y v0 a0 a_max v_max = Raise TypeError
      <-> length x = length y /\ length y = length v0 /\ length v0 = length a0
          /\ (a_max = None /\ v_max <> None
              \/ exists la, a_max = Some la /\ length a0 = length la
                            /\ v_max = None))
  /\ (check_profile_params x y v0 a0 a_max v_max = Raise (ValueError msg_mismatch)
      <-> (a_max <> None \/ v_max <> None)
          /\ (length x <> length y \/ length y <> length v0
              \/ length v0 <> length a0
              \/ exists la, a_max = Some la
                            /\ (length a0 <> length la
                                \/ exists lv, v_max = Some lv
                                              /\ length la <> length lv)))
  /\ (forall e : exn,
        check_profile_params x y v0 a0 a_max v_max = Raise e ->
        e = ValueError msg_missing \/ e = TypeError
        \/ e = ValueError msg_mismatch).
Proof.
  assert (Hmsg : msg_missing <> msg_mismatch) by discriminate.
  assert (Hinj : forall m m' : string, ValueError m = ValueError m' -> m = m')
    by (intros m m' E; injection E as E; exact E).
  destruct a_max as [la | ], v_max as [lv | ];
    unfold check_profile_params, lengths_match;
    cbn [is_None andb py_len bind];
    destruct (Nat.eqb_spec (length x) (length y)) as [Hxy | Hxy];
    destruct (Nat.eqb_spec (length y) (length v0)) as [Hyv | Hyv];
    destruct (Nat.eqb_spec (length v0) (length a0)) as [Hva | Hva];
    try destruct (Nat.eqb_spec (length a0) (length la)) as [Hal | Hal];
    try destruct (Nat.eqb_spec (length la) (length lv)) as [Hlv | Hlv];
    cbn [negb bind];
    repeat match goal with
           | |- _ /\ _ => split
           | |- _ <-> _ => split
           | |- forall _, _ => intro
           end;
    repeat match goal with
           | H : _ /\ _ |- _ => destruct H
           | H : _ \/ _ |- _ => destruct H
           | H : exists _, _ |- _ => destruct H
           | H : Some _ = Some _ |- _ => injection H as H; subst
           | H : Raise _ = Raise _ |- _ =>
               first [discriminate H | injection H as H; subst]
           | H : ValueError _ = ValueError _ |- _ => apply Hinj in H
           end;
    try discriminate; try contradiction; try congruence; try reflexivity;
    try (left; discriminate); try (right; discriminate);
    auto 6;
    try (left; reflexivity);
    try (left; split; [reflexivity | discriminate]);
    try (right; eexists; repeat split; (reflexivity || assumption));
    try (do 3 right; eexists; split;
         [reflexivity
         | first [left; assumption
                 | right; eexists; split; [reflexivity | assumption]]]).
Qed.

(** ** trapezoidal_profile: what a call returns *)

Lemma Forall2_seq_nth {A : Type} (R : nat -> A -> Prop) :
  forall (ps : list A) (s n : nat),
    Forall2 R (seq s n) ps ->
    forall k, (k < n)%nat -> exists p, nth_error ps k = Some p /\ R (s + k)%nat p.
Proof.
  induction ps as [ | p ps IH]; intros s n H k Hk.
  - inversion H as [Hnil | ]. destruct n; [lia | discriminate Hnil].
  - destruct n as [ | n]; [lia | ]. cbn [seq] in H.
    inversion H as [ | i0 p0 l l' Hp Hrest]; subst.
    destruct k as [ | k].
    + exists p. rewrite Nat.add_0_r. split; [reflexivity | assumption].
    + destruct (IH (S s) n Hrest k ltac:(lia)) as (q & Hq & HR).
      exists q. split; [exact Hq | ].
      replace (s + S k)%nat with (S s + k)%nat by lia. assumption.
Qed.

(** X3.  A call that returns gives [dof = len(x)], a list [T] of [dof]
    durations that is the list of the closure, six parameter lists of
    [dof] elements each, and a closure over the arguments of the call. *)
Theorem trapezoidal_profile_shape (x y v0 a0 : list num)
    (v_max a_max : option (list num)) (dof : nat) (Tl : list num) (c : closure) :
  trapezoidal_profile x y v0 a0 v_max a_max = Ok (dof, Tl, c) ->
  dof = length x /\ length Tl = dof /\ Tl = T (c_params c)
  /\ length (TA (c_params c)) = dof /\ length (TC (c_params c)) = dof
  /\ length (SA (c_params c)) = dof /\ length (SC (c_params c)) = dof
  /\ length (VC (c_params c)) = dof
  /\ c_dof c = dof /\ c_x c = x /\ c_y c = y /\ c_v0 c = v0 /\ c_a0 c = a0
  /\ c_v_max c = v_max /\ c_a_max c = a_max.
Proof.
  intros H.
  apply trapezoidal_profile_Ok in H
    as (lv & la & ps & -> & -> & Hdof & _ & _ & _ & _ & _ & Hps & _ & -> & ->).
  cbn [c_params c_dof c_x c_y c_v0 c_a0 c_v_max c_a_max unzip6 T TA TC SA SC VC].
  rewrite !length_map. repeat split; assumption.
Qed.

Lemma main_plan_0 (a0 : num) :
  plan_axis (Fin 1) (Fin 2) (Fin 0) a0 (Fin 3) (Fin 2)
  = Ok (mk_params (Fin (sqrt 2)) (Fin (sqrt 2 / 2)) (Fin 0) (Fin (1 / 2)) (Fin 0)
          (Fin (sqrt 2))).
Proof.
  unfold plan_axis.
  rewrite minimum_time_planner_real by (unfold mt_rad; lra).
  assert (HD : mt_D 1 2 0 2 = sqrt 2) by (unfold mt_D, mt_rad; f_equal; lra).
  unfold mt_t1. rewrite HD.
  assert (Hle : sqrt 2 <= 3).
  { replace 3 with (sqrt (3 * 3)) by (apply sqrt_square; lra). apply sqrt_le_1; lra. }
  pose proof (sqrt_sqrt 2 ltac:(lra)) as Hsq.
  destruct (Rlt_dec 3 (sqrt 2)); [lra | ].
  f_equal. f_equal; apply f_equal; lra.
Qed.

Lemma main_plan_1 (a0 : num) :
  plan_axis (Fin 0) (Fin 15) (Fin 0) a0 (Fin 5) (Fin 3)
  = Ok (mk_params (Fin (14 / 3)) (Fin (5 / 3)) (Fin (4 / 3)) (Fin (25 / 6))
          (Fin (20 / 3)) (Fin 5)).
Proof.
  unfold plan_axis.
  rewrite minimum_time_planner_real by (unfold mt_rad; lra).
  assert (HD : 5 < mt_D 0 15 0 3).
  { unfold mt_D, mt_rad. replace 5 with (sqrt (5 * 5)) by (apply sqrt_square; lra).
    apply sqrt_lt_1; lra. }
  destruct (Rlt_dec 5 (mt_D 0 15 0 3)); [ | lra].
  rewrite trapezoidal_planner_real by lra.
  destruct (Rlt_dec (15 - 0) (2 * tr_sa 0 5 3)) as [Hlt | _].
  - exfalso. unfold tr_sa, tr_ta in Hlt. lra.
  - f_equal. f_equal; apply f_equal; unfold tr_tc, tr_t, tr_sa, tr_ta; lra.
Qed.

Lemma main_profile :
  trapezoidal_profile main_src main_dst main_v0 main_a0
    (Some main_v_max) (Some main_a_max)
  = Ok (2%nat, [Fin (sqrt 2); Fin (14 / 3)], main_closure).
Proof.
  unfold trapezoidal_profile.
  cbn [main_src main_dst main_v0 main_a0 main_v_max main_a_max
       check_profile_params lengths_match is_None andb negb length Nat.eqb
       py_len bind seq plan_loop].
  rewrite (plan_dof_axis _ _ _ _ _ _ 0 (Fin 1) (Fin 2) (Fin 0) (Fin 0) (Fin 3) (Fin 2))
    by reflexivity.
  rewrite main_plan_0. cbn [bind].
  rewrite (plan_dof_axis _ _ _ _ _ _ 1 (Fin 0) (Fin 15) (Fin 0) (Fin 0) (Fin 5) (Fin 3))
    by reflexivity.
  rewrite main_plan_1. reflexivity.
Qed.

Lemma trapezoidal_profile_shape_witness :
  2%nat = length main_src /\ length [Fin (sqrt 2); Fin (14 / 3)] = 2%nat.
Proof.
  destruct (trapezoidal_profile_shape _ _ _ _ _ _ _ _ _ main_profile)
    as (Hdof & Hlen & _).
  split; assumption.
Defined.

(** X4.  Each DOF is planned from its own inputs alone: the [i]-th element of
    every result list is the field of the profile that [plan_axis] gives
    on the [i]-th elements of the arguments. *)
Theorem trapezoidal_profile_per_dof (x y v0 a0 v_max a_max : list num)
    (dof : nat) (Tl : list num) (c : closure) (i : nat) :
  trapezoidal_profile x y v0 a0 (Some v_max) (Some a_max) = Ok (dof, Tl, c) ->
  (i < dof)%nat ->
  exists p : params,
    plan_axis (nth i x NaN) (nth i y NaN) (nth i v0 NaN) (nth i a0 NaN)
              (nth i v_max NaN) (nth i a_max NaN) = Ok p
    /\ nth_error Tl i = Some (p_t p)
    /\ nth_error (TA (c_params c)) i = Some (p_ta p)
    /\ nth_error (TC (c_params c)) i = Some (p_tc p)
    /\ nth_error (SA (c_params c)) i = Some (p_sa p)
    /\ nth_error (SC (c_params c)) i = Some (p_sc p)
    /\ nth_error (VC (c_params c)) i = Some (p_vc p).
Proof.
  intros H Hi.
  apply trapezoidal_profile_Ok in H
    as (lv & la & ps & Elv & Ela & Hdof & Hy & Hv0 & Ha0 & Hlv & Hla & Hps & Hall & -> & ->).
  injection Elv as <-. injection Ela as <-. symmetry in Hdof.
  destruct (Forall2_seq_nth _ _ _ _ Hall i Hi) as (p & Hp & Hplan).
  cbn [Nat.add] in Hplan.
  rewrite (plan_dof_axis x y v0 a0 v_max a_max i
             (nth i x NaN) (nth i y NaN) (nth i v0 NaN) (nth i a0 NaN)
             (nth i v_max NaN) (nth i a_max NaN)) in Hplan
    by (apply nth_error_nth'; lia).
  exists p. split; [exact Hplan | ].
  cbn [c_params unzip6 TA TC SA SC VC].
  repeat split; apply map_nth_error; assumption.
Qed.

Lemma trapezoidal_profile_per_dof_witness :
  exists p : params,
    plan_axis (Fin 0) (Fin 15) (Fin 0) (Fin 0) (Fin 5) (Fin 3) = Ok p
    /\ Some (Fin (14 / 3)) = Some (p_t p).
Proof.
  destruct (trapezoidal_profile_per_dof main_src main_dst main_v0 main_a0
              main_v_max main_a_max 2 _ _ 1 main_profile ltac:(lia))
    as (p & Hp & Ht & _).
  exists p. split; [exact Hp | exact Ht].
Defined.

Lemma plan_loop_raise (x y v0 a0 : list num) (v_max a_max : option (list num))
    (e : exn) (i : nat) (after : list nat) :
  plan_dof x y v0 a0 v_max a_max i = Raise e ->
  forall (before : list nat) (L : traj_params),
    Forall (fun j => exists p, plan_dof x y v0 a0 v_max a_max j = Ok p) before ->
    plan_loop x y v0 a0 v_max a_max (before ++ i :: after) L = Raise e.
Proof.
  intros He. induction before as [ | j before IH]; intros L Hall.
  - cbn [app plan_loop]. rewrite He. reflexivity.
  - inversion Hall as [ | j0 l0 (p & Hp) Hrest]; subst.
    cbn [app plan_loop]. rewrite Hp. cbn [bind]. apply IH. assumption.
Qed.

(** X5.  When the check passes, the DOFs before [i] are planned and the
    planning of DOF [i] raises, the call raises that exception: no later
    DOF is planned and nothing is returned. *)
Theorem trapezoidal_profile_first_failure (x y v0 a0 : list num)
    (v_max a_max : option (list num)) (dof i : nat) (e : exn) :
  check_profile_params x y v0 a0 v_max a_max = Ok dof ->
  (i < dof)%nat ->
  (forall j, (j < i)%nat -> exists p, plan_dof x y v0 a0 v_max a_max j = Ok p) ->
  plan_dof x y v0 a0 v_max a_max i = Raise e ->
  trapezoidal_profile x y v0 a0 v_max a_max = Raise e.
Proof.
  intros Hcheck Hi Hbefore He. unfold trapezoidal_profile.
  rewrite Hcheck. cbn [bind].
  replace dof with (i + S (dof - S i))%nat by lia.
  rewrite seq_app. cbn [seq Nat.add].
  rewrite (plan_loop_raise x y v0 a0 v_max a_max e i _ He); [reflexivity | ].
  apply Forall_forall. intros j Hj. apply in_seq in Hj. apply Hbefore. lia.
Qed.

(** Two DOFs, the second with a negative speed limit: the first is
    planned, the second raises [PlanningError] in the trapezoidal planner,
    and so does the call. *)
Lemma trapezoidal_profile_first_failure_witness :
  trapezoidal_profile [Fin 0; Fin 0] [Fin 0; Fin 4] [Fin 0; Fin 0] [Fin 0; Fin 0]
    (Some [Fin 3; Fin (-3)]) (Some [Fin 1; Fin 1])
  = Raise (PlanningError msg_trapezoidal).
Proof.
  apply (trapezoidal_profile_first_failure _ _ _ _ _ _ 2 1).
  - reflexivity.
  - lia.
  - intros j Hj. assert (j = 0%nat) as -> by lia.
    eexists.
    rewrite (plan_dof_axis _ _ _ _ _ _ 0 (Fin 0) (Fin 0) (Fin 0) (Fin 0) (Fin 3) (Fin 1))
      by reflexivity.
    unfold plan_axis.
    rewrite rest_move_0_plan. reflexivity.
  - rewrite (plan_dof_axis _ _ _ _ _ _ 1 (Fin 0) (Fin 4) (Fin 0) (Fin 0) (Fin (-3)) (Fin 1))
      by reflexivity.
    unfold plan_axis.
    rewrite minimum_time_planner_real by (unfold mt_rad; lra).
    pose proof (sqrt_pos (mt_rad 0 4 0 1)) as HD. fold (mt_D 0 4 0 1) in HD.
    destruct (Rlt_dec (-3) (mt_D 0 4 0 1)); [ | lra].
    rewrite trapezoidal_planner_real by lra.
    destruct (Rlt_dec (4 - 0) (2 * tr_sa 0 (-3) 1)) as [ | Hge]; [reflexivity | ].
    exfalso. apply Hge. unfold tr_sa, tr_ta. lra.
Defined.

(** ** The evaluator on a planned trajectory *)


Section Rows.

Variables x y v0 a0 lv la : list num.
Variable dof : nat.
Variable L : traj_params.
Variable i : nat.

Hypothesis Hx : length x = dof.
Hypothesis Hy : length y = dof.
Hypothesis Hv0 : length v0 = dof.
Hypothesis Ha0 : length a0 = dof.
Hypothesis Hlv : length lv = dof.
Hypothesis Hla : length la = dof.
Hypothesis Hi : (i < dof)%nat.



End Rows.



(** ** class Trajectory *)

(** X15.  [Trajectory.plan_trajectory] raises what [trapezoidal_profile] raises.
    When it returns, the object has [dof = len(x)], a [time] list of
    [dof] durations, and forwards its calls to the evaluator: at time [0]
    it returns the start state of every DOF, and at a negative time it
    raises [ValueError]. *)
Theorem plan_trajectory_object (x y v0 a0 : list num)
    (v_max a_max : option (list num)) :
  (forall e, trapezoidal_profile x y v0 a0 v_max a_max = Raise e ->
             plan_trajectory x y v0 a0 v_max a_max = Raise e)
  /\ (forall traj,
        plan_trajectory x y v0 a0 v_max a_max = Ok traj ->
        _dof traj = length x
        /\ (exists Tl, _time traj = TimeList Tl /\ length Tl = length x)
        /\ (exists c, _trajectory traj = Some c
                      /\ trapezoidal_profile x y v0 a0 v_max a_max
                         = Ok (_dof traj, T (c_params c), c))
        /\ Trajectory_call traj (Fin 0)
           = Ok (map (start_point x v0 a0) (seq 0 (length x)))
        /\ (forall r : R, r < 0 ->
              Trajectory_call traj (Fin r) = Raise (ValueError msg_negative_time))).
Proof.
  split.
  - intros e He. unfold plan_trajectory. rewrite He. reflexivity.
  - intros traj H. unfold plan_trajectory in H.
    destruct (trapezoidal_profile x y v0 a0 v_max a_max) as [[[dof Tl] c] | e] eqn:Hp;
      [ | discriminate H].
    cbn [bind] in H. injection H as <-.
    cbn [Trajectory_init set_time set_trajectory set_dof _trajectory _time _dof
         Trajectory_call].
    pose proof (trajectory_at_zero _ _ _ _ _ _ _ _ _ Hp) as Hzero.
    pose proof Hp as Hshape.
    apply trapezoidal_profile_Ok in Hshape
      as (lv & la & ps & _ & _ & Hdof & _ & _ & _ & _ & _ & Hps & _ & HT & Hc).
    subst dof.
    split; [reflexivity | ].
    split; [exists Tl; split; [reflexivity | rewrite HT, length_map; exact Hps] | ].
    split.
    { exists c. split; [reflexivity | ].
      assert (ET : Tl = T (c_params c))
        by (rewrite Hc; cbn [c_params unzip6 T]; exact HT).
      rewrite <- ET. reflexivity. }
    split; [exact Hzero | ].
    intros r Hr. unfold trajectory. cbn [nlt ncmp].
    rewrite Rltb_true by assumption. reflexivity.
Qed.

(** An object on which [plan_trajectory] was not run holds no evaluator:
    calling it raises [TypeError], whatever the time; storing an
    evaluator makes the call the evaluator's. *)
Theorem Trajectory_call_unplanned (c : closure) (time : num) :
  Trajectory_call Trajectory_init time = Raise TypeError
  /\ Trajectory_call (set_dof (set_time Trajectory_init []) 0) time = Raise TypeError
  /\ Trajectory_call (set_trajectory Trajectory_init c) time = trajectory c time.
Proof. repeat split. Qed.

Lemma plan_trajectory_object_witness :
  _dof (mk_Trajectory (Some main_closure) (TimeList [Fin (sqrt 2); Fin (14 / 3)]) 2)
  = length main_src
  /\ Trajectory_call
       (mk_Trajectory (Some main_closure) (TimeList [Fin (sqrt 2); Fin (14 / 3)]) 2)
       (Fin 0)
     = Ok (map (start_point main_src main_v0 main_a0) (seq 0 (length main_src))).
Proof.
  assert (Hplan : plan_trajectory main_src main_dst main_v0 main_a0
                    (Some main_v_max) (Some main_a_max)
                  = Ok (mk_Trajectory (Some main_closure)
                          (TimeList [Fin (sqrt 2); Fin (14 / 3)]) 2)).
  { unfold plan_trajectory. rewrite main_profile. reflexivity. }
  destruct (proj2 (plan_trajectory_object _ _ _ _ _ _) _ Hplan)
    as (Hdof & _ & _ & Hzero & _).
  split; assumption.
Defined.

(** * Properties of Part II *)

Module B64Props.

Import PrimFloat SpecFloat FloatOps FloatAxioms.
Import B64.
Local Open Scope float_scope.

(** ** Comparisons of binary64 numbers *)

Lemma compare_cont_antisym (p q : positive) :
  PosDef.Pos.compare_cont Eq q p = CompOpp (PosDef.Pos.compare_cont Eq p q).
Proof. exact (eq_sym (Pos.compare_cont_antisym p q Eq)). Qed.

Lemma compare_cont_refl (p : positive) : PosDef.Pos.compare_cont Eq p p = Eq.
Proof. exact (Pos.compare_cont_refl p Eq). Qed.

Lemma SFcompare_antisym (x y : spec_float) :
  SFcompare y x = option_map CompOpp (SFcompare x y).
Proof.
  destruct x as [sx | sx | | sx mx ex], y as [sy | sy | | sy my ey];
    unfold SFcompare, option_map;
    try reflexivity;
    try (destruct sx; reflexivity); try (destruct sy; reflexivity);
    destruct sx, sy; try reflexivity.
  - rewrite (Z.compare_antisym ex ey).
    destruct (ex ?= ey)%Z; try reflexivity.
    cbn [CompOpp]. rewrite (compare_cont_antisym mx my). reflexivity.
  - rewrite (Z.compare_antisym ex ey).
    destruct (ex ?= ey)%Z; try reflexivity.
    cbn [CompOpp]. rewrite (compare_cont_antisym mx my).
    destruct (PosDef.Pos.compare_cont Eq mx my); reflexivity.
Qed.

Lemma SFcompare_refl (x : spec_float) :
  x <> S754_nan -> SFcompare x x = Some Eq.
Proof.
  destruct x as [s | s | | s m e]; unfold SFcompare; intros H; try reflexivity.
  - destruct s; reflexivity.
  - contradiction.
  - rewrite Z.compare_refl, compare_cont_refl.
    destruct s; reflexivity.
Qed.

Lemma SFcompare_None (x y : spec_float) :
  SFcompare x y = None <-> x = S754_nan \/ y = S754_nan.
Proof.
  destruct x as [sx | sx | | sx mx ex], y as [sy | sy | | sy my ey]; cbn;
    split; intros H; try discriminate H; try reflexivity;
    try (left; reflexivity); try (right; reflexivity);
    try (destruct H as [H | H]; discriminate H).
Qed.

Lemma fcmp_antisym (a b : float) : fcmp b a = option_map CompOpp (fcmp a b).
Proof. apply SFcompare_antisym. Qed.

Lemma ltb_fcmp (a b : float) :
  (a <? b) = match fcmp a b with Some Lt => true | _ => false end.
Proof. rewrite ltb_spec. reflexivity. Qed.

Lemma leb_fcmp (a b : float) :
  (a <=? b) = match fcmp a b with Some (Lt | Eq) => true | _ => false end.
Proof. rewrite leb_spec. reflexivity. Qed.

Lemma eqb_fcmp (a b : float) :
  (a =? b) = match fcmp a b with Some Eq => true | _ => false end.
Proof. rewrite eqb_spec. reflexivity. Qed.

Lemma is_nan_spec (a : float) : is_nan a = true <-> Prim2SF a = S754_nan.
Proof.
  unfold is_nan. rewrite eqb_fcmp. unfold fcmp. split.
  - intros H. destruct (Prim2SF a) as [s | s | | s m e] eqn:E; try reflexivity;
      rewrite SFcompare_refl in H by discriminate; discriminate H.
  - intros ->. reflexivity.
Qed.

Lemma is_nan_false (a : float) : is_nan a = false <-> Prim2SF a <> S754_nan.
Proof.
  rewrite <- is_nan_spec. destruct (is_nan a); split; congruence.
Qed.

Lemma fcmp_None (a b : float) :
  fcmp a b = None <-> is_nan a = true \/ is_nan b = true.
Proof. unfold fcmp. rewrite SFcompare_None, !is_nan_spec. reflexivity. Qed.

(** Rewriting every comparison of the goal and of the context to [fcmp]. *)
Ltac to_fcmp :=
  repeat match goal with
  | H : context [ltb _ _] |- _ => rewrite ltb_fcmp in H
  | H : context [leb _ _] |- _ => rewrite leb_fcmp in H
  | H : context [eqb _ _] |- _ => rewrite eqb_fcmp in H
  | |- context [ltb _ _] => rewrite ltb_fcmp
  | |- context [leb _ _] => rewrite leb_fcmp
  | |- context [eqb _ _] => rewrite eqb_fcmp
  end.

Lemma ltb_not_leb (a b : float) : (a <? b) = true -> (b <=? a) = false.
Proof.
  to_fcmp. rewrite (fcmp_antisym a b).
  destruct (fcmp a b) as [[] | ]; cbn; congruence.
Qed.

Lemma leb_not_ltb (a b : float) : (a <=? b) = true -> (b <? a) = false.
Proof.
  to_fcmp. rewrite (fcmp_antisym a b).
  destruct (fcmp a b) as [[] | ]; cbn; congruence.
Qed.

Lemma ltb_not_ltb (a b : float) : (a <? b) = true -> (b <? a) = false.
Proof.
  to_fcmp. rewrite (fcmp_antisym a b).
  destruct (fcmp a b) as [[] | ]; cbn; congruence.
Qed.

Lemma ltb_not_eqb (a b : float) :
  (a <? b) = true -> (a =? b) = false /\ (b =? a) = false.
Proof.
  to_fcmp. rewrite (fcmp_antisym a b).
  destruct (fcmp a b) as [[] | ]; cbn; split; congruence.
Qed.

Lemma eqb_not_ltb (a b : float) :
  (a =? b) = true -> (a <? b) = false /\ (b <? a) = false.
Proof.
  to_fcmp. rewrite (fcmp_antisym a b).
  destruct (fcmp a b) as [[] | ]; cbn; split; congruence.
Qed.

Lemma ltb_leb (a b : float) : (a <? b) = true -> (a <=? b) = true.
Proof. to_fcmp. destruct (fcmp a b) as [[] | ]; cbn; congruence. Qed.

(** Two numbers are ordered: nan is the only value that is not. *)
Lemma not_ltb_leb (a b : float) :
  (a <? b) = false -> (b <=? a) = true \/ is_nan a = true \/ is_nan b = true.
Proof.
  intros H. destruct (fcmp a b) as [c | ] eqn:E.
  - left. to_fcmp. rewrite (fcmp_antisym a b), E in *.
    destruct c; cbn; congruence.
  - right. apply fcmp_None. assumption.
Qed.

Lemma ltb_or_leb (a b : float) :
  is_nan a = false -> is_nan b = false -> (a <? b) = true \/ (b <=? a) = true.
Proof.
  intros Ha Hb. destruct (a <? b) eqn:E; [left; reflexivity | right].
  destruct (not_ltb_leb a b E) as [H | [H | H]]; congruence.
Qed.

Lemma nan_compare (a b : float) :
  is_nan a = true ->
  (a <? b) = false /\ (b <? a) = false /\ (a <=? b) = false
  /\ (b <=? a) = false /\ (a =? b) = false /\ (b =? a) = false.
Proof.
  intros H.
  assert (E : fcmp a b = None) by (apply fcmp_None; left; assumption).
  to_fcmp. rewrite (fcmp_antisym a b), E. cbn. repeat split.
Qed.

Lemma ltb_not_nan (a b : float) :
  (a <? b) = true -> is_nan a = false /\ is_nan b = false.
Proof.
  intros H. split.
  - destruct (is_nan a) eqn:E; [ | reflexivity].
    apply (nan_compare a b) in E as (E & _). congruence.
  - destruct (is_nan b) eqn:E; [ | reflexivity].
    apply (nan_compare b a) in E as (_ & E & _). congruence.
Qed.

Lemma leb_not_nan (a b : float) :
  (a <=? b) = true -> is_nan a = false /\ is_nan b = false.
Proof.
  intros H. split.
  - destruct (is_nan a) eqn:E; [ | reflexivity].
    apply (nan_compare a b) in E as (_ & _ & E & _). congruence.
  - destruct (is_nan b) eqn:E; [ | reflexivity].
    apply (nan_compare b a) in E as (_ & _ & _ & E & _). congruence.
Qed.

Lemma leb_refl (a : float) : is_nan a = false -> (a <=? a) = true.
Proof.
  intros H. apply is_nan_false in H. rewrite leb_fcmp. unfold fcmp.
  rewrite SFcompare_refl by assumption. reflexivity.
Qed.

(** ** nan through the arithmetic *)



Lemma sub_nan_l (a b : float) : is_nan a = true -> is_nan (a - b) = true.
Proof.
  rewrite !is_nan_spec, sub_spec. intros ->. reflexivity.
Qed.


Lemma mul_nan_l (a b : float) : is_nan a = true -> is_nan (a * b) = true.
Proof.
  rewrite !is_nan_spec, mul_spec. intros ->. reflexivity.
Qed.



Lemma div_nan_r (a b : float) : is_nan b = true -> is_nan (a / b) = true.
Proof.
  rewrite !is_nan_spec, div_spec. intros ->.
  destruct (Prim2SF a); reflexivity.
Qed.

Lemma Prim2SF_zero : Prim2SF 0 = S754_zero false.
Proof. reflexivity. Qed.


(** ** Equal numbers and zeros *)

(** Two numbers that compare equal are the same number, or two zeros. *)
Lemma SFcompare_Eq (x y : spec_float) :
  SFcompare x y = Some Eq ->
  x = y \/ exists s s', x = S754_zero s /\ y = S754_zero s'.
Proof.
  destruct x as [sx | sx | | sx mx ex], y as [sy | sy | | sy my ey];
    unfold SFcompare; intros H; try discriminate H;
    try (destruct sx; discriminate H); try (destruct sy; discriminate H).
  - right. exists sx, sy. split; reflexivity.
  - destruct sx, sy; try discriminate H; left; reflexivity.
  - left.
    destruct sx, sy; try discriminate H;
      destruct (Z.compare_spec ex ey) as [-> | | ]; try discriminate H;
      assert (E : PosDef.Pos.compare_cont Eq mx my = Eq)
        by (destruct (PosDef.Pos.compare_cont Eq mx my);
            (reflexivity || discriminate H));
      apply (Pos.compare_eq mx my) in E; subst my; reflexivity.
Qed.

Lemma eqb_fcmp_l (a b c : float) : (a =? b) = true -> fcmp c a = fcmp c b.
Proof.
  rewrite eqb_spec. unfold SFeqb, fcmp.
  destruct (SFcompare (Prim2SF a) (Prim2SF b)) as [[] | ] eqn:E; try discriminate.
  intros _. apply SFcompare_Eq in E as [-> | (s & s' & -> & ->)]; [reflexivity | ].
  destruct (Prim2SF c); reflexivity.
Qed.

Lemma eqb_leb (a b : float) : (a =? b) = true -> (a <=? b) = true.
Proof. to_fcmp. destruct (fcmp a b) as [[] | ]; congruence. Qed.

Lemma eqb_ltb_l (a b c : float) :
  (a =? b) = true -> (c <? b) = true -> (c <? a) = true.
Proof.
  intros He H. rewrite ltb_fcmp in *. rewrite (eqb_fcmp_l a b c He). exact H.
Qed.

Lemma Prim2SF_infinity : Prim2SF infinity = S754_infinity false.
Proof. reflexivity. Qed.

Lemma eqb_zero (a : float) : (a =? 0) = true <-> fzero a.
Proof.
  rewrite eqb_spec, Prim2SF_zero. unfold SFeqb, fzero. split.
  - destruct (Prim2SF a) as [s | s | | s m e]; cbn; try discriminate.
    + intros _. exists s. reflexivity.
    + destruct s; discriminate.
    + destruct s; discriminate.
  - intros (s & ->). reflexivity.
Qed.

Lemma is_finite_spec (a : float) : is_finite a = true <-> ffinite a.
Proof.
  unfold is_finite, is_nan, is_infinity, ffinite.
  rewrite !eqb_spec, abs_spec, Prim2SF_infinity. unfold SFeqb.
  destruct (Prim2SF a) as [s | s | | s m e] eqn:E.
  - cbn. split; [intros _; exact I | reflexivity].
  - cbn. split; [ | contradiction].
    destruct s; discriminate.
  - cbn. split; [discriminate | contradiction].
  - rewrite SFcompare_refl by discriminate. cbn.
    split; [intros _; exact I | reflexivity].
Qed.

Lemma fzero_finite (a : float) : fzero a -> is_finite a = true.
Proof. intros (s & H). apply is_finite_spec. unfold ffinite. rewrite H. exact I. Qed.

Lemma fzero_not_infinity (a : float) : fzero a -> is_infinity a = false.
Proof.
  intros (s & H). unfold is_infinity.
  rewrite eqb_spec, abs_spec, H, Prim2SF_infinity. reflexivity.
Qed.

(** A zero compares as [0] does. *)
Lemma fzero_fcmp (a c : float) : fzero a -> fcmp c a = fcmp c 0.
Proof.
  intros (s & H). unfold fcmp. rewrite H, Prim2SF_zero.
  destruct (Prim2SF c); reflexivity.
Qed.

Lemma fzero_not_gt (a v : float) : fzero a -> (0 <? v) = true -> (v <? a) = false.
Proof.
  intros Hz Hv. apply ltb_not_ltb in Hv.
  rewrite ltb_fcmp in *. rewrite (fzero_fcmp a v Hz). exact Hv.
Qed.

(** The difference of two equal finite numbers is a zero. *)
Lemma sub_equal (x y : float) :
  is_finite x = true -> (y =? x) = true -> fzero (y - x).
Proof.
  rewrite is_finite_spec, eqb_spec. unfold ffinite, SFeqb, fzero.
  rewrite sub_spec.
  destruct (SFcompare (Prim2SF y) (Prim2SF x)) as [[] | ] eqn:E; try discriminate.
  intros Hx _. apply SFcompare_Eq in E as [E | (s & s' & Ey & Ex)].
  - rewrite E. destruct (Prim2SF x) as [s | s | | s m e]; try contradiction.
    + exists (if s then false else false). destruct s; reflexivity.
    + exists false. unfold SF64sub, SFsub. rewrite Z.sub_diag. reflexivity.
  - rewrite Ey, Ex. destruct s, s'; eexists; reflexivity.
Qed.

Lemma mul_zero_l (a b : float) : fzero a -> is_finite b = true -> fzero (a * b).
Proof.
  rewrite is_finite_spec. unfold ffinite, fzero. rewrite mul_spec.
  intros (s & ->) Hb.
  destruct (Prim2SF b) as [s' | s' | | s' m e]; try contradiction;
    eexists; reflexivity.
Qed.

Lemma mul_zero_r (a b : float) : is_finite a = true -> fzero b -> fzero (a * b).
Proof.
  rewrite is_finite_spec. unfold ffinite, fzero. rewrite mul_spec.
  intros Ha (s & ->).
  destruct (Prim2SF a) as [s' | s' | | s' m e]; try contradiction;
    eexists; reflexivity.
Qed.

Lemma add_zero (a b : float) : fzero a -> fzero b -> fzero (a + b).
Proof.
  unfold fzero. rewrite add_spec. intros (s & ->) (s' & ->).
  destruct s, s'; eexists; reflexivity.
Qed.

Lemma sub_zero (a b : float) : fzero a -> fzero b -> fzero (a - b).
Proof.
  unfold fzero. rewrite sub_spec. intros (s & ->) (s' & ->).
  destruct s, s'; eexists; reflexivity.
Qed.

Lemma opp_zero (a : float) : fzero a -> fzero (- a).
Proof.
  unfold fzero. rewrite opp_spec. intros (s & ->). eexists; reflexivity.
Qed.

Lemma sqrt_zero (a : float) : fzero a -> fzero (sqrt a).
Proof.
  unfold fzero. rewrite sqrt_spec. intros (s & ->). eexists; reflexivity.
Qed.

(** A zero divided by a positive number, infinite or not, is a zero. *)
Lemma div_zero (a b : float) : fzero a -> (0 <? b) = true -> fzero (a / b).
Proof.
  unfold fzero. rewrite ltb_spec, div_spec, Prim2SF_zero. intros (s & ->).
  destruct (Prim2SF b) as [s' | s' | | s' m e]; cbn; try discriminate;
    intros _; eexists; reflexivity.
Qed.

(** ** Signs *)










(** ** The planners *)

Lemma py_max_Np (a b : float) :
  py_max (Np a) (Np b) = Np (if a <? b then b else a).
Proof.
  unfold py_max, ngt, nlt. cbn [Np float_of]. destruct (a <? b); reflexivity.
Qed.

(** The minimum-time planner on Python floats, in closed form. *)
Lemma minimum_time_planner_py (x y v0 v_max a_max : float) (a0 : num) :
  minimum_time_planner (Py x) (Py y) (Py v0) a0 (Py v_max) (Py a_max)
  = if pow2_overflows v0 then Raise OverflowError
    else if v_max <? mt_peak x y v0 a_max then Raise (PlanningError msg_speed)
    else Ok (mt_profile x y v0 a_max).
Proof.
  unfold minimum_time_planner, py_pow2, pow2_overflows.
  cbn [Py kind_of float_of].
  destruct (is_finite v0 && is_infinity (v0 * v0)); [reflexivity | ].
  cbn [bind]. unfold py_div at 1. cbn.
  rewrite py_max_Np. reflexivity.
Qed.





(** ** The planning loop *)

Lemma zip6_of_unzip6 (ps : list params) :
  zip6 (map p_t ps) (map p_ta ps) (map p_tc ps)
       (map p_sa ps) (map p_sc ps) (map p_vc ps) = ps.
Proof.
  induction ps as [ | p ps IH]; [reflexivity | ].
  cbn. rewrite IH. destruct p; reflexivity.
Qed.

Lemma append_params_planned (ps : list params) (p : params) :
  append_params (unzip6 ps) p = unzip6 (ps ++ [p]).
Proof. unfold append_params, unzip6. cbn. rewrite !map_app. reflexivity. Qed.

Lemma plan_loop_planned (x y v0 a0 : list num) (v_max a_max : option (list num)) :
  forall (range : list nat) (ps0 : list params) (L : traj_params),
    plan_loop x y v0 a0 v_max a_max range (unzip6 ps0) = Ok L ->
    exists ps,
      L = unzip6 (ps0 ++ ps)
      /\ Forall2 (fun i p => plan_dof x y v0 a0 v_max a_max i = Ok p) range ps.
Proof.
  induction range as [ | i range IH]; intros ps0 L H; cbn in H.
  - injection H as <-. exists []. rewrite app_nil_r. split; [reflexivity | constructor].
  - apply bind_Ok_inv in H as (p & Hp & H).
    rewrite append_params_planned in H.
    apply IH in H as (ps & -> & Hall).
    exists (p :: ps). rewrite <- app_assoc. split; [reflexivity | ].
    constructor; assumption.
Qed.

Lemma check_profile_params_passed (x y v0 a0 : list num)
    (a_max v_max : option (list num)) (n : nat) :
  check_profile_params x y v0 a0 a_max v_max = Ok n ->
  exists la lv,
    a_max = Some la /\ v_max = Some lv
    /\ n = length x /\ length y = n /\ length v0 = n /\ length a0 = n
    /\ length la = n /\ length lv = n.
Proof.
  unfold check_profile_params, lengths_match. intros H.
  destruct (is_None a_max && is_None v_max); [discriminate H | ].
  destruct (Nat.eqb_spec (length x) (length y)) as [Hxy | ]; [ | discriminate H].
  destruct (Nat.eqb_spec (length y) (length v0)) as [Hyv | ]; [ | discriminate H].
  destruct (Nat.eqb_spec (length v0) (length a0)) as [Hva | ]; [ | discriminate H].
  cbn [negb] in H.
  destruct a_max as [la | ]; [ | discriminate H]. cbn [py_len bind] in H.
  destruct (Nat.eqb_spec (length a0) (length la)) as [Hal | ]; [ | discriminate H].
  cbn [negb] in H.
  destruct v_max as [lv | ]; [ | discriminate H]. cbn [py_len bind] in H.
  destruct (Nat.eqb_spec (length la) (length lv)) as [Hlv | ]; [ | discriminate H].
  cbn in H. injection H as <-.
  exists la, lv. repeat split; congruence.
Qed.

(** What a call of [trapezoidal_profile] that returns has computed. *)
Lemma trapezoidal_profile_planned (x y v0 a0 : list num)
    (v_max a_max : option (list num)) (dof : nat) (Tl : list num) (c : closure) :
  trapezoidal_profile x y v0 a0 v_max a_max = Ok (dof, Tl, c) ->
  exists lv la ps,
    v_max = Some lv /\ a_max = Some la
    /\ dof = length x /\ length y = dof /\ length v0 = dof /\ length a0 = dof
    /\ length lv = dof /\ length la = dof /\ length ps = dof
    /\ Forall2 (fun i p => plan_dof x y v0 a0 v_max a_max i = Ok p) (seq 0 dof) ps
    /\ Tl = map p_t ps
    /\ c = mk_closure dof x y v0 a0 v_max a_max (unzip6 ps).
Proof.
  unfold trapezoidal_profile. intros H.
  apply bind_Ok_inv in H as (n & Hcheck & H).
  apply bind_Ok_inv in H as (L & Hloop & H).
  injection H as <- <- <-.
  apply check_profile_params_passed in Hcheck
    as (lv & la & -> & -> & Hn & Hy & Hv0 & Ha0 & Hlv & Hla).
  apply (plan_loop_planned x y v0 a0 (Some lv) (Some la) (seq 0 n) []) in Hloop
    as (ps & -> & Hall).
  exists lv, la, ps. cbn [app].
  repeat split; try assumption.
  apply Forall2_length in Hall. rewrite length_seq in Hall. congruence.
Qed.

Lemma zip_rows_planned (dof : nat) (ps : list params) :
  zip_rows dof (unzip6 ps) = combine (seq 0 dof) ps.
Proof. unfold zip_rows, unzip6. cbn. rewrite zip6_of_unzip6. reflexivity. Qed.

(** ** The rows of the evaluator *)

Lemma rows_const (c : closure) (_t : num) (f : nat -> point) :
  forall zs : list (nat * params),
    (forall i p, In (i, p) zs -> trajectory_row c _t i p = Ok (f i)) ->
    rows c _t zs = Ok (map (fun z => f (fst z)) zs).
Proof.
  induction zs as [ | [i p] zs IH]; intros H; [reflexivity | ].
  cbn [rows map fst]. rewrite (H i p) by (left; reflexivity).
  cbn [bind]. rewrite IH by (intros j q Hin; apply H; right; assumption).
  reflexivity.
Qed.

(** An array is returned only when every row is computed, and holds the
    rows in the order of the DOFs. *)
Lemma rows_returned (c : closure) (_t : num) :
  forall (zs : list (nat * params)) (pts : list point),
    rows c _t zs = Ok pts ->
    Forall2 (fun z pt => trajectory_row c _t (fst z) (snd z) = Ok pt) zs pts.
Proof.
  induction zs as [ | [i p] zs IH]; intros pts H; cbn [rows] in H.
  - injection H as <-. constructor.
  - apply bind_Ok_inv in H as (pt & Hpt & H).
    apply bind_Ok_inv in H as (pts' & Hpts & H).
    injection H as <-. constructor; [exact Hpt | apply IH; exact Hpts].
Qed.

Lemma rows_all (c : closure) (_t : num) :
  forall zs : list (nat * params),
    (forall i p, In (i, p) zs -> exists pt, trajectory_row c _t i p = Ok pt) ->
    exists pts, rows c _t zs = Ok pts /\ length pts = length zs.
Proof.
  induction zs as [ | [i p] zs IH]; intros H.
  - exists []. split; reflexivity.
  - destruct (H i p (or_introl eq_refl)) as (pt & Hpt).
    destruct IH as (pts & Hpts & Hlen);
      [intros j q Hin; apply H; right; assumption | ].
    exists (pt :: pts). cbn [rows]. rewrite Hpt. cbn [bind]. rewrite Hpts.
    split; [reflexivity | cbn [length]; congruence].
Qed.


Lemma combine_seq_nth {A : Type} (ps : list A) :
  forall (s i : nat) (p : A),
    In (i, p) (combine (seq s (length ps)) ps) <->
    (s <= i)%nat /\ nth_error ps (i - s) = Some p.
Proof.
  induction ps as [ | q ps IH]; intros s i p; cbn [length seq combine In].
  - split; [contradiction | ]. intros (_ & H). destruct (i - s)%nat; discriminate H.
  - rewrite IH. split.
    + intros [Heq | (Hle & Hnth)].
      * injection Heq as <- <-. rewrite Nat.sub_diag. split; [lia | reflexivity].
      * split; [lia | ]. replace (i - s)%nat with (S (i - S s)) by lia. exact Hnth.
    + intros (Hle & Hnth). destruct (i - s)%nat as [ | k] eqn:E.
      * left. cbn in Hnth. injection Hnth as <-. f_equal. lia.
      * right. split; [lia | ]. cbn in Hnth.
        replace (i - S s)%nat with k by lia. exact Hnth.
Qed.

Lemma Forall2_nth_error {A B : Type} (R : A -> B -> Prop) :
  forall (l : list A) (l' : list B),
    Forall2 R l l' ->
    forall (k : nat) (a : A),
      nth_error l k = Some a -> exists b, nth_error l' k = Some b /\ R a b.
Proof.
  induction 1 as [ | a0 b0 l l' Hab Hall IH]; intros k a Hk.
  - destruct k; discriminate Hk.
  - destruct k as [ | k]; cbn in Hk |- *.
    + injection Hk as <-. exists b0. split; [reflexivity | assumption].
    + apply IH. assumption.
Qed.

Lemma nth_error_combine_seq {A : Type} (ps : list A) :
  forall (s i : nat) (p : A),
    nth_error ps i = Some p ->
    nth_error (combine (seq s (length ps)) ps) i = Some ((s + i)%nat, p).
Proof.
  induction ps as [ | q ps IH]; intros s i p H.
  - destruct i; discriminate H.
  - destruct i as [ | i]; cbn in H |- *.
    + injection H as <-. rewrite Nat.add_0_r. reflexivity.
    + rewrite (IH (S s) i p H). f_equal. f_equal. lia.
Qed.

(** The DOF [i] of a planned trajectory: its row of the zip is the
    profile [p] whose fields are the [i]-th elements of the six lists. *)
Lemma planned_row (ps : list params) (i : nat) (t ta tc : num) :
  nth_error (T (unzip6 ps)) i = Some t ->
  nth_error (TA (unzip6 ps)) i = Some ta ->
  nth_error (TC (unzip6 ps)) i = Some tc ->
  exists p, nth_error ps i = Some p /\ p_t p = t /\ p_ta p = ta /\ p_tc p = tc.
Proof.
  cbn [unzip6 T TA TC]. rewrite !nth_error_map.
  destruct (nth_error ps i) as [p | ]; cbn; intros Ht Hta Htc; [ | discriminate Ht].
  exists p. repeat split; congruence.
Qed.

Lemma py_div_two (a : num) :
  py_div a two = Ok (mk_num (kind_of a) (float_of a / 2)).
Proof. unfold py_div, result_kind. destruct a as [[] f]; reflexivity. Qed.

Section PlannedRows.

Variables x y v0 a0 lv la : list num.
Variable dof : nat.
Variable L : traj_params.

Hypothesis Hx : length x = dof.
Hypothesis Hy : length y = dof.
Hypothesis Hv0 : length v0 = dof.
Hypothesis Ha0 : length a0 = dof.
Hypothesis Hlv : length lv = dof.
Hypothesis Hla : length la = dof.

(** At [_t == 0] the first branch is taken. *)
Lemma row_at_zero (_t : num) (i : nat) (p : params) :
  (i < dof)%nat -> (_t =? zero)%b64 = true ->
  trajectory_row (planned_closure x y v0 a0 lv la dof L) _t i p
  = Ok (start_point x v0 a0 i).
Proof.
  intros Hi Hz. unfold trajectory_row, planned_closure.
  cbn [c_a0 c_v0 c_x]. rewrite Hz.
  rewrite (py_index_nth a0 i zero), (py_index_nth v0 i zero),
    (py_index_nth x i zero) by lia.
  reflexivity.
Qed.

(** Past the ramp, the cruise and the duration of a profile, at a
    positive time, the last branch is taken. *)
Lemma row_past_duration (_t : num) (i : nat) (p : params) :
  (i < dof)%nat ->
  (zero <? _t)%b64 = true ->
  (p_ta p <? _t)%b64 = true ->
  (p_ta p + p_tc p <=? _t)%b64 = true ->
  (p_t p <=? _t)%b64 = true ->
  trajectory_row (planned_closure x y v0 a0 lv la dof L) _t i p
  = Ok (goal_point y v0 a0 i).
Proof.
  unfold nlt, nle. intros Hi Hpos Hta Htc Ht.
  unfold trajectory_row, planned_closure, nge, neqb, nlt, nle.
  cbn [c_a0 c_v0 c_y].
  rewrite (proj2 (ltb_not_eqb _ _ Hpos)).
  rewrite (ltb_not_leb _ _ Hta), andb_false_r.
  rewrite (leb_not_ltb _ _ Htc), andb_false_r.
  rewrite (leb_not_ltb _ _ Ht), andb_false_r.
  rewrite Ht.
  rewrite (py_index_nth a0 i zero), (py_index_nth v0 i zero),
    (py_index_nth y i zero) by lia.
  reflexivity.
Qed.

(** Within the ramp the second branch is taken, whatever the cruise. *)
Lemma row_in_ramp (_t sq : num) (i : nat) (p : params) :
  (i < dof)%nat ->
  (zero <? _t)%b64 = true -> (_t <=? p_ta p)%b64 = true ->
  py_pow2 _t = Ok sq ->
  trajectory_row (planned_closure x y v0 a0 lv la dof L) _t i p
  = Ok (ramp_point x v0 la i _t sq).
Proof.
  unfold nlt, nle. intros Hi Hpos Hta Hsq.
  unfold trajectory_row, planned_closure, neqb, nlt, nle.
  cbn [c_a_max c_v0 c_x py_getitem].
  rewrite (proj2 (ltb_not_eqb _ _ Hpos)), Hpos, Hta. cbn [andb].
  rewrite (py_index_nth la i zero), (py_index_nth v0 i zero),
    (py_index_nth x i zero) by lia.
  cbn [bind]. rewrite Hsq. cbn [bind]. rewrite py_div_two. reflexivity.
Qed.


(** A row is computed, or no branch matches, or [**] overflows on a
    Python float: no other exception leaves the loop of the evaluator. *)
Lemma row_outcomes (_t : num) (i : nat) (p : params) :
  (i < dof)%nat ->
  (exists pt, trajectory_row (planned_closure x y v0 a0 lv la dof L) _t i p = Ok pt)
  \/ (exists e,
        trajectory_row (planned_closure x y v0 a0 lv la dof L) _t i p = Raise e
        /\ (e = ValueError msg_time_limit
            \/ e = OverflowError /\ kind_of _t = PyFloat)).
Proof.
  intros Hi. unfold trajectory_row, planned_closure.
  cbn [c_a_max c_v_max c_a0 c_v0 c_x c_y py_getitem].
  rewrite (py_index_nth a0 i zero), (py_index_nth v0 i zero),
    (py_index_nth x i zero), (py_index_nth y i zero),
    (py_index_nth la i zero), (py_index_nth lv i zero) by lia.
  cbn [bind].
  destruct (_t =? zero)%b64; [left; eexists; reflexivity | ].
  destruct ((zero <? _t)%b64 && (_t <=? p_ta p)%b64).
  { unfold py_pow2. destruct (kind_of _t).
    - destruct (is_finite (float_of _t) && is_infinity (float_of _t * float_of _t)).
      + right. eexists. split; [reflexivity | right; split; reflexivity].
      + cbn [bind]. rewrite py_div_two. left. eexists. reflexivity.
    - cbn [bind]. rewrite py_div_two. left. eexists. reflexivity. }
  destruct ((p_ta p <=? _t)%b64 && (_t <? p_ta p + p_tc p)%b64);
    [left; eexists; reflexivity | ].
  destruct ((p_ta p + p_tc p <=? _t)%b64 && (_t <? p_t p)%b64).
  { unfold py_pow2.
    destruct (kind_of (_t - p_ta p - p_tc p)%b64) eqn:Hk.
    - match goal with |- context [if ?b then _ else _] => destruct b end.
      + right. eexists. split; [reflexivity | right; split; [reflexivity | ]].
        unfold nsub, result_kind in Hk. cbn [kind_of] in Hk.
        destruct (kind_of _t); [reflexivity | ].
        destruct (kind_of (p_ta p)); discriminate Hk.
      + cbn [bind]. rewrite py_div_two. left. eexists. reflexivity.
    - cbn [bind]. rewrite py_div_two. left. eexists. reflexivity. }
  destruct (_t >=? p_t p)%b64; [left; eexists; reflexivity | ].
  right. eexists. split; [reflexivity | left; reflexivity].
Qed.

End PlannedRows.

(** ** C1: the start and the goal *)

(** C1, as amended.  For a trajectory that was planned, evaluating at a
    time equal to [0] returns [(a0[i], v0[i], x[i])] for every DOF [i].
    At a time [_t > 0], an array that is returned has the row
    [(a0[i], v0[i], y[i])] for every DOF [i] with [_t >= t[i]] that is
    also past its ramp and its cruise ([_t > ta[i]] and
    [_t >= ta[i] + tc[i]]), and the array is returned, with these rows,
    when that holds of every DOF. *)
Theorem trajectory_endpoints (x y v0 a0 : list num) (v_max a_max : option (list num))
    (dof : nat) (Tl : list num) (c : closure) :
  trapezoidal_profile x y v0 a0 v_max a_max = Ok (dof, Tl, c) ->
  (forall _t : num,
      (_t =? zero)%b64 = true ->
      trajectory c _t = Ok (map (start_point x v0 a0) (seq 0 dof)))
  /\ (forall (_t : num) (pts : list point) (i : nat) (t ta tc : num),
        trajectory c _t = Ok pts ->
        nth_error (T (c_params c)) i = Some t ->
        nth_error (TA (c_params c)) i = Some ta ->
        nth_error (TC (c_params c)) i = Some tc ->
        (zero <? _t)%b64 = true -> (t <=? _t)%b64 = true ->
        (ta <? _t)%b64 = true -> (ta + tc <=? _t)%b64 = true ->
        nth_error pts i = Some (goal_point y v0 a0 i))
  /\ (forall _t : num,
        (zero <? _t)%b64 = true ->
        (forall (i : nat) (t ta tc : num),
            nth_error (T (c_params c)) i = Some t ->
            nth_error (TA (c_params c)) i = Some ta ->
            nth_error (TC (c_params c)) i = Some tc ->
            (t <=? _t)%b64 = true /\ (ta <? _t)%b64 = true
            /\ (ta + tc <=? _t)%b64 = true) ->
        trajectory c _t = Ok (map (goal_point y v0 a0) (seq 0 dof))).
Proof.
  intros H.
  apply trapezoidal_profile_planned in H
    as (lv & la & ps & -> & -> & Hdof & Hy & Hv0 & Ha0 & Hlv & Hla & Hps & Hall & -> & ->).
  symmetry in Hdof. cbn [c_params].
  fold (planned_closure x y v0 a0 lv la dof (unzip6 ps)).
  split; [ | split].
  - intros _t Hz. unfold trajectory, nlt.
    rewrite (proj1 (eqb_not_ltb _ _ Hz)).
    cbn [planned_closure c_dof c_params]. rewrite zip_rows_planned.
    fold (planned_closure x y v0 a0 lv la dof (unzip6 ps)).
    rewrite (rows_const _ _ (start_point x v0 a0)).
    + rewrite <- Hps at 1. rewrite map_fst_combine_seq, Hps. reflexivity.
    + intros i p Hin. apply row_at_zero; try assumption.
      apply in_combine_seq in Hin. assumption.
  - intros _t pts i t ta tc Hret Ht Hta Htc Hpos Hge Hramp Hcruise.
    destruct (planned_row ps i t ta tc Ht Hta Htc) as (p & Hp & <- & <- & <-).
    unfold trajectory in Hret.
    destruct (_t <? zero)%b64; [discriminate Hret | ].
    cbn [planned_closure c_dof c_params] in Hret.
    rewrite zip_rows_planned in Hret.
    apply rows_returned in Hret.
    rewrite <- Hps in Hret.
    destruct (Forall2_nth_error _ _ _ Hret i (i, p)) as (pt & Hpt & Hrow).
    { rewrite (nth_error_combine_seq ps 0 i p Hp). reflexivity. }
    cbn [fst snd] in Hrow. rewrite Hpt. f_equal.
    fold (planned_closure x y v0 a0 lv la (length ps) (unzip6 ps)) in Hrow.
    rewrite Hps in Hrow.
    rewrite row_past_duration in Hrow; try assumption.
    + injection Hrow as <-. reflexivity.
    + rewrite <- Hps. apply nth_error_Some. rewrite Hp. discriminate.
  - intros _t Hpos Hdone. unfold trajectory.
    unfold nlt in Hpos |- *. rewrite (ltb_not_ltb _ _ Hpos).
    cbn [planned_closure c_dof c_params]. rewrite zip_rows_planned.
    fold (planned_closure x y v0 a0 lv la dof (unzip6 ps)).
    rewrite (rows_const _ _ (goal_point y v0 a0)).
    + rewrite <- Hps at 1. rewrite map_fst_combine_seq, Hps. reflexivity.
    + intros i p Hin.
      assert (Hi : (i < dof)%nat) by (apply in_combine_seq in Hin; assumption).
      rewrite <- Hps in Hin. apply combine_seq_nth in Hin as (_ & Hp).
      rewrite Nat.sub_0_r in Hp.
      destruct (Hdone i (p_t p) (p_ta p) (p_tc p)) as (Hge & Hramp & Hcruise);
        try (cbn [unzip6 T TA TC]; rewrite nth_error_map, Hp; reflexivity).
      apply row_past_duration; assumption.
Qed.

Lemma rest_move_profile :
  trapezoidal_profile [Py 0] [Py 4] [Py 0] [Py 0] (Some [Py 3]) (Some [Py 1])
  = Ok (1%nat, [Np 4], rest_move_closure).
Proof. vm_compute. reflexivity. Qed.

Lemma trajectory_endpoints_witness :
  trajectory rest_move_closure (Py 0) = Ok [mk_point 0 0 0]
  /\ trajectory rest_move_closure (Py 4) = Ok [mk_point 0 0 4].
Proof.
  destruct (trajectory_endpoints _ _ _ _ _ _ _ _ _ rest_move_profile)
    as (H0 & _ & Hall).
  split; [apply (H0 (Py 0)); reflexivity | ].
  apply (Hall (Py 4)); [reflexivity | ].
  intros [ | i] t ta tc Ht Hta Htc; [ | destruct i; discriminate Ht].
  injection Ht as <-. injection Hta as <-. injection Htc as <-.
  repeat split; reflexivity.
Defined.

(** The move with a velocity away from the goal plans [t = -2]: the
    time [0] is past that duration, and the evaluator reports there the
    start position [3], not the goal [0].  The start faster than the
    speed limit plans [t = 81] with [ta = -9] and [tc = 99]: at
    [_t = 85], past the duration, the cruise branch still matches and
    the evaluator reports the speed [1] and the position [44.5], not
    [v0 = 10] and the goal [0]. *)
Lemma trajectory_goal_missed :
  trapezoidal_profile [Py 3] [Py 0] [Py 2] [Py 0] (Some [Py 5]) (Some [Py 1])
  = Ok (1%nat, [Np (-2)], reverse_move_closure)
  /\ (Py 0 >=? Np (-2))%b64 = true
  /\ trajectory reverse_move_closure (Py 0) = Ok [mk_point 0 2 3]
  /\ trapezoidal_profile [Py 0] [Py 0] [Py 10] [Py 0] (Some [Py 1]) (Some [Py 1])
     = Ok (1%nat, [Py 81], overspeed_closure)
  /\ (Py 85 >=? Py 81)%b64 = true
  /\ trajectory overspeed_closure (Py 85) = Ok [mk_point 0 1 44.5].
Proof. vm_compute. repeat split; reflexivity. Qed.

(** ** C2: the guard of the minimum-time planner *)




(** ** C3: the guard of the trapezoidal planner *)




(** ** C4: the duration of a profile *)




(** ** C9: the degenerate move *)

(** C9, as amended.  On Python floats with [y == x] finite,
    [v0 == 0], a finite [a_max] whose half [a_max / 2.] is still
    positive, and [v_max > 0], the minimum-time planner returns a
    profile with [t], [ta], [sa] and the peak speed equal to zero, and
    [tc = sc = 0]: no nan arises. *)
Theorem minimum_time_planner_degenerate (x y v0 v_max a_max : float) (a0 : num) :
  is_finite x = true -> (y =? x) = true -> (v0 =? 0) = true ->
  is_finite a_max = true -> (0 <? a_max / 2) = true -> (0 <? v_max) = true ->
  minimum_time_planner (Py x) (Py y) (Py v0) a0 (Py v_max) (Py a_max)
  = Ok (mt_profile x y v0 a_max)
  /\ (p_t (mt_profile x y v0 a_max) =? zero)%b64 = true
  /\ (p_ta (mt_profile x y v0 a_max) =? zero)%b64 = true
  /\ (p_tc (mt_profile x y v0 a_max) =? zero)%b64 = true
  /\ (p_sa (mt_profile x y v0 a_max) =? zero)%b64 = true
  /\ (p_sc (mt_profile x y v0 a_max) =? zero)%b64 = true
  /\ (p_vc (mt_profile x y v0 a_max) =? zero)%b64 = true.
Proof.
  intros Hx Hyx Hv0 Ha Hden Hv.
  apply eqb_zero in Hv0.
  assert (Hrad : fzero (v0 * v0 + (y - x) * a_max)).
  { apply add_zero.
    - apply mul_zero_l; [assumption | apply fzero_finite; assumption].
    - apply mul_zero_l; [apply sub_equal; assumption | assumption]. }
  assert (HD : fzero (mt_D x y v0 a_max)) by (apply sqrt_zero; exact Hrad).
  assert (Ht1 : fzero (mt_t1 x y v0 a_max)).
  { apply div_zero; [ | assumption].
    apply add_zero; [apply opp_zero | ]; assumption. }
  assert (Ht2 : fzero (mt_t2 x y v0 a_max)).
  { apply div_zero; [ | assumption].
    apply sub_zero; [apply opp_zero | ]; assumption. }
  assert (Ht : fzero (mt_t x y v0 a_max)).
  { unfold mt_t. destruct (mt_t1 x y v0 a_max <? mt_t2 x y v0 a_max); assumption. }
  assert (Hta : fzero (mt_ta x y v0 a_max))
    by (apply mul_zero_r; [reflexivity | assumption]).
  assert (Hsa : fzero (mt_sa x y v0 a_max)).
  { apply add_zero.
    - apply mul_zero_l; [assumption | apply fzero_finite; assumption].
    - apply div_zero; [ | reflexivity].
      apply mul_zero_r; [assumption | ].
      apply mul_zero_l; [assumption | apply fzero_finite; assumption]. }
  assert (Hpeak : fzero (mt_peak x y v0 a_max)).
  { apply add_zero; [assumption | ].
    apply mul_zero_r; assumption. }
  split.
  - rewrite minimum_time_planner_py. unfold pow2_overflows.
    rewrite (fzero_not_infinity (v0 * v0)), andb_false_r
      by (apply mul_zero_l; [assumption | apply fzero_finite; assumption]).
    rewrite (fzero_not_gt _ _ Hpeak Hv). reflexivity.
  - unfold neqb. cbn [mt_profile p_t p_ta p_tc p_sa p_sc p_vc Np zero Py float_of].
    repeat split; try (apply eqb_zero; assumption); reflexivity.
Qed.

Lemma minimum_time_planner_degenerate_witness :
  minimum_time_planner (Py 1) (Py 1) (Py 0) zero (Py 3) (Py 2)
  = Ok (mt_profile 1 1 0 2)
  /\ (p_t (mt_profile 1 1 0 2) =? zero)%b64 = true
  /\ (p_ta (mt_profile 1 1 0 2) =? zero)%b64 = true
  /\ (p_tc (mt_profile 1 1 0 2) =? zero)%b64 = true
  /\ (p_sa (mt_profile 1 1 0 2) =? zero)%b64 = true
  /\ (p_sc (mt_profile 1 1 0 2) =? zero)%b64 = true
  /\ (p_vc (mt_profile 1 1 0 2) =? zero)%b64 = true.
Proof.
  apply (minimum_time_planner_degenerate 1 1 0 3 2 zero); reflexivity.
Defined.

(** With [a_max] the smallest positive binary64 number, [2^-1074], the
    half [a_max / 2.] rounds to zero, both solutions are [0 / 0] and the
    planner returns a profile whose duration is nan. *)
Lemma minimum_time_planner_degenerate_nan :
  (0 <? 0x1p-1074) = true /\ (0 <? 1) = true
  /\ (0x1p-1074 / 2 =? 0) = true
  /\ minimum_time_planner (Py 0) (Py 0) (Py 0) zero (Py 1) (Py 0x1p-1074)
     = Ok (mk_params (Np nan) (Np nan) zero (Np nan) zero (Np nan))
  /\ (Np nan =? zero)%b64 = false.
Proof. vm_compute. repeat split; reflexivity. Qed.

(** ** C5: the tie at the end of the acceleration ramp *)

(** C5, as amended.  For a planned trajectory and a DOF [i] with
    [ta[i] > 0], at a time [_t == ta[i]] whose square does not overflow
    the acceleration branch is the one taken ([0 < _t <= ta] is tested
    before [ta <= _t < ta + tc]): an array that is returned has for
    that DOF the row [(a_max[i], a_max[i]*_t + v0[i],
    x[i] + a_max[i]*_t**2/2 + v0[i]*_t)], whatever the cruise time, and
    for a single DOF the array is returned. *)
Theorem ramp_end_tie (x y v0 a0 v_max a_max : list num)
    (dof : nat) (Tl : list num) (c : closure) (i : nat) (ta _t sq : num) :
  trapezoidal_profile x y v0 a0 (Some v_max) (Some a_max) = Ok (dof, Tl, c) ->
  nth_error (TA (c_params c)) i = Some ta ->
  (zero <? ta)%b64 = true -> (_t =? ta)%b64 = true ->
  py_pow2 _t = Ok sq ->
  (forall pts : list point,
      trajectory c _t = Ok pts ->
      nth_error pts i = Some (ramp_point x v0 a_max i _t sq))
  /\ (dof = 1%nat -> trajectory c _t = Ok [ramp_point x v0 a_max 0 _t sq]).
Proof.
  intros H Hta Hpos Heq Hsq.
  apply trapezoidal_profile_planned in H
    as (lv & la & ps & Elv & Ela & Hdof & Hy & Hv0 & Ha0 & Hlv & Hla & Hps & Hall & -> & ->).
  injection Elv as <-. injection Ela as <-. symmetry in Hdof.
  cbn [c_params unzip6 TA] in Hta. rewrite nth_error_map in Hta.
  destruct (nth_error ps i) as [p | ] eqn:Hp; [ | discriminate Hta].
  cbn in Hta. injection Hta as <-.
  assert (Hi : (i < dof)%nat).
  { rewrite <- Hps. apply nth_error_Some. rewrite Hp. discriminate. }
  unfold nlt, neqb in Hpos, Heq. cbn [zero Py float_of] in Hpos.
  assert (Hpos' : (zero <? _t)%b64 = true) by (exact (eqb_ltb_l _ _ _ Heq Hpos)).
  assert (Hle : (_t <=? p_ta p)%b64 = true) by (exact (eqb_leb _ _ Heq)).
  fold (planned_closure x y v0 a0 v_max a_max dof (unzip6 ps)).
  assert (Hrow : trajectory_row (planned_closure x y v0 a0 v_max a_max dof (unzip6 ps))
                   _t i p = Ok (ramp_point x v0 a_max i _t sq))
    by (apply row_in_ramp; assumption).
  assert (Hneg : (_t <? zero)%b64 = false) by (exact (ltb_not_ltb _ _ Hpos')).
  split.
  - intros pts Hret. unfold trajectory in Hret. rewrite Hneg in Hret.
    cbn [planned_closure c_dof c_params] in Hret.
    rewrite zip_rows_planned in Hret.
    apply rows_returned in Hret. rewrite <- Hps in Hret.
    destruct (Forall2_nth_error _ _ _ Hret i (i, p)) as (pt & Hpt & Hr).
    { rewrite (nth_error_combine_seq ps 0 i p Hp). reflexivity. }
    cbn [fst snd] in Hr. rewrite Hps in Hr.
    fold (planned_closure x y v0 a0 v_max a_max dof (unzip6 ps)) in Hr.
    rewrite Hrow in Hr. injection Hr as <-. exact Hpt.
  - intros ->. unfold trajectory. rewrite Hneg.
    cbn [planned_closure c_dof c_params]. rewrite zip_rows_planned.
    destruct ps as [ | q [ | q' ps]]; try discriminate Hps.
    assert (i = 0)%nat by lia. subst i. cbn in Hp. injection Hp as ->.
    cbn [seq combine rows].
    fold (planned_closure x y v0 a0 v_max a_max 1 (unzip6 [p])).
    rewrite Hrow. reflexivity.
Qed.

Lemma cruise_profile :
  trapezoidal_profile [Py 0] [Py 4] [Py 0] [Py 0] (Some [Py 1]) (Some [Py 1])
  = Ok (1%nat, [Py 5], cruise_closure).
Proof. vm_compute. reflexivity. Qed.

Lemma ramp_end_tie_witness :
  trajectory cruise_closure (Py 1) = Ok [ramp_point [Py 0] [Py 0] [Py 1] 0 (Py 1) (Py 1)].
Proof.
  apply (proj2 (ramp_end_tie [Py 0] [Py 4] [Py 0] [Py 0] [Py 1] [Py 1]
                  1 [Py 5] cruise_closure 0 (Py 1) (Py 1) (Py 1)
                  cruise_profile eq_refl eq_refl eq_refl eq_refl)).
  reflexivity.
Defined.

(** The plan [t = 5], [ta = 1], [tc = 3]: at [_t == ta = 1] the
    evaluator reports the acceleration [1] of the ramp, not the [0] of
    the cruise. *)
Lemma ramp_end_not_cruise :
  trapezoidal_profile [Py 0] [Py 4] [Py 0] [Py 0] (Some [Py 1]) (Some [Py 1])
  = Ok (1%nat, [Py 5], cruise_closure)
  /\ TA (c_params cruise_closure) = [Py 1]
  /\ TC (c_params cruise_closure) = [Py 3]
  /\ trajectory cruise_closure (Py 1) = Ok [mk_point 1 1 0.5]
  /\ (1 =? 0) = false.
Proof. vm_compute. repeat split; reflexivity. Qed.

(** ** A radicand that is negative *)






(** ** C7: the order of the durations *)


(** ** The outcomes of the evaluator *)

Lemma fcmp_numbers (a b : float) :
  is_nan a = false -> is_nan b = false -> exists c, fcmp a b = Some c.
Proof.
  intros Ha Hb. destruct (fcmp a b) as [c | ] eqn:E; [exists c; reflexivity | ].
  apply fcmp_None in E as [E | E]; congruence.
Qed.

Lemma rows_raised (c : closure) (_t : num) (e : exn) :
  forall zs : list (nat * params),
    rows c _t zs = Raise e ->
    exists i p, In (i, p) zs /\ trajectory_row c _t i p = Raise e.
Proof.
  induction zs as [ | [i p] zs IH]; intros H; cbn [rows] in H; [discriminate H | ].
  destruct (trajectory_row c _t i p) as [pt | e'] eqn:Hrow; cbn [bind] in H.
  - destruct (rows c _t zs) as [pts | e'] eqn:Hrows; cbn [bind] in H;
      [discriminate H | ].
    injection H as ->.
    destruct (IH eq_refl) as (j & q & Hin & Hq).
    exists j, q. split; [right; exact Hin | exact Hq].
  - injection H as ->. exists i, p. split; [left; reflexivity | exact Hrow].
Qed.

(** When the time and the planned [t], [ta] and [ta + tc] are numbers,
    one of the five branches matches. *)
Lemma row_of_numbers (c : closure) (_t : num) (i : nat) (p : params) :
  is_nan (float_of _t) = false -> (_t <? zero)%b64 = false ->
  is_nan (float_of (p_t p)) = false ->
  is_nan (float_of (p_ta p)) = false ->
  is_nan (float_of (p_ta p + p_tc p)%b64) = false ->
  trajectory_row c _t i p <> Raise (ValueError msg_time_limit).
Proof.
  intros Hn Hneg Ht Hta Hs. unfold trajectory_row. cbv zeta.
  unfold nge, nlt, nle, neqb in *. cbn [zero Py float_of] in *.
  destruct (fcmp_numbers _ 0 Hn eq_refl) as (c0 & E0).
  destruct (fcmp_numbers _ _ Hn Ht) as (c1 & E1).
  destruct (fcmp_numbers _ _ Hn Hta) as (c2 & E2).
  destruct (fcmp_numbers _ _ Hn Hs) as (c3 & E3).
  rewrite ltb_fcmp, E0 in Hneg.
  rewrite !ltb_fcmp, !leb_fcmp, !eqb_fcmp.
  rewrite (fcmp_antisym (float_of _t) 0),
    (fcmp_antisym (float_of _t) (float_of (p_t p))),
    (fcmp_antisym (float_of _t) (float_of (p_ta p))),
    (fcmp_antisym (float_of _t) (float_of (p_ta p + p_tc p)%b64)).
  rewrite E0, E1, E2, E3. cbn [option_map].
  assert (Hb : forall (A : Type) (m : result A) (k : A -> result point),
             (forall a, k a <> Raise (ValueError msg_time_limit)) ->
             (forall e, m = Raise e -> e <> ValueError msg_time_limit) ->
             bind m k <> Raise (ValueError msg_time_limit)).
  { intros A m k Hk Hm. destruct m as [a | e]; cbn [bind]; [apply Hk | ].
    intros E. injection E as E. exact (Hm e eq_refl E). }
  assert (Hidx : forall (l : list num) e,
             py_index l i = Raise e -> e <> ValueError msg_time_limit).
  { intros l e. unfold py_index. destruct (nth_error l i); intros E;
      [discriminate E | injection E as <-; discriminate]. }
  assert (Hget : forall (l : option (list num)) e,
             py_getitem l i = Raise e -> e <> ValueError msg_time_limit).
  { intros [l | ] e; cbn [py_getitem]; [apply Hidx | ].
    intros E. injection E as <-. discriminate. }
  assert (Hpow : forall a e, py_pow2 a = Raise e -> e <> ValueError msg_time_limit).
  { intros a e. unfold py_pow2. destruct (kind_of a);
      [destruct (is_finite (float_of a) && is_infinity (float_of a * float_of a)) | ];
      intros E; try discriminate E. injection E as <-. discriminate. }
  assert (Hdiv : forall a e, py_div a two = Raise e -> e <> ValueError msg_time_limit).
  { intros a e. rewrite py_div_two. discriminate. }
  destruct c0, c1, c2, c3; cbn [CompOpp andb] in *; try discriminate Hneg;
    repeat first
      [ apply Hb; [intros ? | first [apply Hidx | apply Hget | apply Hpow | apply Hdiv]]
      | discriminate ].
Qed.

(** X16.  The evaluator of a planned trajectory: a negative time raises
    [ValueError] ("Time must be positive number"); any other time gives
    an array of [dof] rows, or [ValueError] ("Time exceeds limit"), or
    the [OverflowError] of [**] on a Python float; and "Time exceeds
    limit" is out of reach when the time and the planned [t], [ta] and
    [ta + tc] of every DOF are numbers. *)
Theorem trajectory_outcomes (x y v0 a0 : list num) (v_max a_max : option (list num))
    (dof : nat) (Tl : list num) (c : closure) (_t : num) :
  trapezoidal_profile x y v0 a0 v_max a_max = Ok (dof, Tl, c) ->
  ((_t <? zero)%b64 = true ->
   trajectory c _t = Raise (ValueError msg_negative_time))
  /\ ((_t <? zero)%b64 = false ->
      (exists pts, trajectory c _t = Ok pts /\ length pts = dof)
      \/ (exists e,
            trajectory c _t = Raise e
            /\ (e = ValueError msg_time_limit
                \/ e = OverflowError /\ kind_of _t = PyFloat)))
  /\ (is_nan (float_of _t) = false ->
      (forall (i : nat) (t ta tc : num),
          nth_error (T (c_params c)) i = Some t ->
          nth_error (TA (c_params c)) i = Some ta ->
          nth_error (TC (c_params c)) i = Some tc ->
          is_nan (float_of t) = false /\ is_nan (float_of ta) = false
          /\ is_nan (float_of (ta + tc)%b64) = false) ->
      trajectory c _t <> Raise (ValueError msg_time_limit)).
Proof.
  intros H.
  apply trapezoidal_profile_planned in H
    as (lv & la & ps & -> & -> & Hdof & Hy & Hv0 & Ha0 & Hlv & Hla & Hps & Hall & -> & ->).
  symmetry in Hdof. unfold trajectory. cbn [c_dof c_params].
  rewrite zip_rows_planned.
  fold (planned_closure x y v0 a0 lv la dof (unzip6 ps)).
  split; [ | split].
  - intros ->. reflexivity.
  - intros ->.
    destruct (rows (planned_closure x y v0 a0 lv la dof (unzip6 ps)) _t
                (combine (seq 0 dof) ps)) as [pts | e] eqn:Hrows.
    + left. exists pts. split; [reflexivity | ].
      apply rows_returned, Forall2_length in Hrows.
      rewrite <- Hrows, length_combine, length_seq, Hps. apply Nat.min_id.
    + right. exists e. split; [reflexivity | ].
      apply rows_raised in Hrows as (i & p & Hin & Hrow).
      destruct (row_outcomes x y v0 a0 lv la dof (unzip6 ps)
                  Hdof Hy Hv0 Ha0 Hlv Hla _t i p) as [(pt & Hpt) | (e' & He' & HP)].
      * apply in_combine_seq in Hin. assumption.
      * rewrite Hpt in Hrow. discriminate Hrow.
      * rewrite He' in Hrow. injection Hrow as <-. exact HP.
  - intros Hn Hnum.
    destruct (_t <? zero)%b64 eqn:Hneg; [discriminate | ].
    intros Hrows. apply rows_raised in Hrows as (i & p & Hin & Hrow).
    rewrite <- Hps in Hin. apply combine_seq_nth in Hin as (_ & Hp).
    rewrite Nat.sub_0_r in Hp.
    destruct (Hnum i (p_t p) (p_ta p) (p_tc p)) as (Ht & Hta & Hs);
      try (cbn [unzip6 T TA TC]; rewrite nth_error_map, Hp; reflexivity).
    revert Hrow. apply row_of_numbers; assumption.
Qed.

Lemma trajectory_outcomes_witness :
  trajectory cruise_closure (Py 2) <> Raise (ValueError msg_time_limit).
Proof.
  apply (proj2 (proj2 (trajectory_outcomes _ _ _ _ _ _ _ _ _ (Py 2) cruise_profile)));
    [reflexivity | ].
  intros [ | i] t ta tc Ht Hta Htc; [ | destruct i; discriminate Ht].
  injection Ht as <-. injection Hta as <-. injection Htc as <-.
  repeat split; reflexivity.
Defined.

(** ** The try/except of the planning loop *)


(** ** The accelerations the evaluator reports *)

Lemma row_acceleration (c : closure) (_t : num) (i : nat) (p : params) (pt : point) :
  trajectory_row c _t i p = Ok pt ->
  (exists a, nth_error (c_a0 c) i = Some a /\ acceleration pt = float_of a)
  \/ acceleration pt = 0
  \/ (exists la a,
        c_a_max c = Some la /\ nth_error la i = Some a
        /\ (acceleration pt = float_of a \/ acceleration pt = - float_of a)).
Proof.
  assert (Hidx : forall (l : list num) a, py_index l i = Ok a -> nth_error l i = Some a).
  { intros l a. unfold py_index. destruct (nth_error l i); intros E;
      [injection E as <-; reflexivity | discriminate E]. }
  assert (Hget : forall (l : option (list num)) a,
             py_getitem l i = Ok a -> exists la, l = Some la /\ nth_error la i = Some a).
  { intros [l | ] a; cbn [py_getitem]; intros E; [ | discriminate E].
    exists l. split; [reflexivity | apply Hidx; exact E]. }
  unfold trajectory_row. intros H.
  destruct (_t =? zero)%b64.
  { apply bind_Ok_inv in H as (a & Ha & H).
    apply bind_Ok_inv in H as (v & _ & H).
    apply bind_Ok_inv in H as (xi & _ & H).
    injection H as <-. left. exists a. split; [apply Hidx; exact Ha | reflexivity]. }
  destruct ((zero <? _t)%b64 && (_t <=? p_ta p)%b64).
  { apply bind_Ok_inv in H as (a & Ha & H).
    apply bind_Ok_inv in H as (v & _ & H).
    apply bind_Ok_inv in H as (xi & _ & H).
    apply bind_Ok_inv in H as (t2 & _ & H).
    apply bind_Ok_inv in H as (h & _ & H).
    injection H as <-. right; right.
    destruct (Hget _ _ Ha) as (la & E & Hn).
    exists la, a. repeat split; try assumption. left. reflexivity. }
  destruct ((p_ta p <=? _t)%b64 && (_t <? p_ta p + p_tc p)%b64).
  { apply bind_Ok_inv in H as (v & _ & H).
    apply bind_Ok_inv in H as (xi & _ & H).
    injection H as <-. right; left. reflexivity. }
  destruct ((p_ta p + p_tc p <=? _t)%b64 && (_t <? p_t p)%b64).
  { apply bind_Ok_inv in H as (a & Ha & H).
    apply bind_Ok_inv in H as (xi & _ & H).
    apply bind_Ok_inv in H as (d2 & _ & H).
    apply bind_Ok_inv in H as (h & _ & H).
    injection H as <-. right; right.
    destruct (Hget _ _ Ha) as (la & E & Hn).
    exists la, a. repeat split; try assumption. right. reflexivity. }
  destruct (_t >=? p_t p)%b64; [ | discriminate H].
  apply bind_Ok_inv in H as (a & Ha & H).
  apply bind_Ok_inv in H as (v & _ & H).
  apply bind_Ok_inv in H as (yi & _ & H).
  injection H as <-. left. exists a. split; [apply Hidx; exact Ha | reflexivity].
Qed.

Lemma nth_error_combine_seq_index {A : Type} (ps : list A) :
  forall (s n i j : nat) (p : A),
    nth_error (combine (seq s n) ps) i = Some (j, p) -> j = (s + i)%nat.
Proof.
  induction ps as [ | q ps IH]; intros s n i j p H.
  - destruct n; cbn in H; destruct i; discriminate H.
  - destruct n as [ | n]; [destruct i; discriminate H | ].
    destruct i as [ | i]; cbn in H.
    + injection H as <- _. lia.
    + apply IH in H. lia.
Qed.

(** X17.  The evaluator of a planned trajectory reports, for every DOF
    [i] of an array it returns, an acceleration that is [a0[i]],
    [a_max[i]], [0] or [-a_max[i]]: the profile is bang-bang, with the
    initial acceleration echoed at the two ends. *)
Theorem trajectory_accelerations (x y v0 a0 v_max a_max : list num)
    (dof : nat) (Tl : list num) (c : closure) (_t : num)
    (pts : list point) (i : nat) (pt : point) :
  trapezoidal_profile x y v0 a0 (Some v_max) (Some a_max) = Ok (dof, Tl, c) ->
  trajectory c _t = Ok pts ->
  nth_error pts i = Some pt ->
  acceleration pt = float_of (nth i a0 zero)
  \/ acceleration pt = float_of (nth i a_max zero)
  \/ acceleration pt = 0
  \/ acceleration pt = - float_of (nth i a_max zero).
Proof.
  intros H Hret Hpt.
  apply trapezoidal_profile_planned in H
    as (lv & la & ps & Elv & Ela & Hdof & Hy & Hv0 & Ha0 & Hlv & Hla & Hps & Hall & -> & ->).
  injection Elv as <-. injection Ela as <-.
  unfold trajectory in Hret. destruct (_t <? zero)%b64; [discriminate Hret | ].
  cbn [c_dof c_params] in Hret. rewrite zip_rows_planned in Hret.
  apply rows_returned in Hret.
  destruct (Forall2_nth_error _ _ _ (Forall2_flip Hret) i pt Hpt) as ([j p] & Hz & Hrow).
  cbn [fst snd] in Hrow.
  apply nth_error_combine_seq_index in Hz. cbn in Hz.
  subst j.
  destruct (row_acceleration _ _ _ _ _ Hrow)
    as [(a & Ha & E) | [E | (la & a & Ela & Ha & [E | E])]]; cbn [c_a0 c_a_max] in *.
  - left. rewrite E. f_equal. symmetry. apply nth_error_nth. exact Ha.
  - right; right; left. exact E.
  - injection Ela as <-. right; left. rewrite E. f_equal. symmetry.
    apply nth_error_nth. exact Ha.
  - injection Ela as <-. right; right; right. rewrite E. f_equal. f_equal.
    symmetry. apply nth_error_nth. exact Ha.
Qed.

Lemma trajectory_accelerations_witness :
  acceleration (mk_point 1 1 0.5) = float_of (nth 0 [Py 0] zero)
  \/ acceleration (mk_point 1 1 0.5) = float_of (nth 0 [Py 1] zero)
  \/ acceleration (mk_point 1 1 0.5) = 0
  \/ acceleration (mk_point 1 1 0.5) = - float_of (nth 0 [Py 1] zero).
Proof.
  apply (trajectory_accelerations [Py 0] [Py 4] [Py 0] [Py 0] [Py 1] [Py 1]
           1 [Py 5] cruise_closure (Py 1) [mk_point 1 1 0.5] 0 (mk_point 1 1 0.5)
           cruise_profile);
    reflexivity.
Defined.

(** ** Scenario A on binary64 numbers *)

(** The input [x=0, y=10, v0=0, a0=0, v_max=5, a_max=2] of scenario A:
    the planning call returns the minimum-time profile, with
    [t = 4.4721359549995796] (the rounded root of [20]) below the speed
    limit [5], and the trapezoidal planner called on it raises. *)
Lemma scenario_A_binary64 :
  (exists c,
      trapezoidal_profile [Py 0] [Py 10] [Py 0] [Py 0] (Some [Py 5]) (Some [Py 2])
      = Ok (1%nat, [Np 0x1.1e3779b97f4a8p+2], c))
  /\ trapezoidal_planner (Py 0) (Py 10) (Py 0) (Py 0) (Py 5) (Py 2)
     = Raise (PlanningError msg_trapezoidal).
Proof. vm_compute. split; [eexists | ]; reflexivity. Qed.

End B64Props.
